(** * Kings Properties scraper: extraction and pagination engine

    A shallow embedding of the Selenium scrapers of this repository
    ([scraper.py], [complete_scraper.py], [comprehensive_scraper.py],
    [simple_scraper.py]) and the properties of their extraction and
    pagination logic.

    The browser is an external collaborator.  It is modelled as an
    interface ([Driver]) of stateful, fallible operations over an
    arbitrary world type; the Python code is written in a state and
    exception monad over that interface and keeps a chronological trace
    of every driver call together with the answer it got. *)

From Stdlib Require Import ZArith Ascii String List Bool Lia DecimalString.
From stdpp Require Import base option list gmap strings.

Local Open Scope string_scope.
Local Open Scope Z_scope.

(** ** Python strings

    Strings are byte strings; the case conversions act on the ASCII
    letters and [strip] removes the ASCII white space that [str.strip]
    removes. *)
Module PyStr.

Definition is_space (c : ascii) : bool :=
  let n := nat_of_ascii c in
  ((9 <=? n) && (n <=? 13) || (28 <=? n) && (n <=? 32))%nat.

Definition upper_char (c : ascii) : ascii :=
  let n := nat_of_ascii c in
  if ((97 <=? n) && (n <=? 122))%nat then ascii_of_nat (n - 32) else c.

Definition lower_char (c : ascii) : ascii :=
  let n := nat_of_ascii c in
  if ((65 <=? n) && (n <=? 90))%nat then ascii_of_nat (n + 32) else c.

Fixpoint map_chars (f : ascii -> ascii) (s : string) : string :=
  match s with
  | EmptyString => EmptyString
  | String c s' => String (f c) (map_chars f s')
  end.

(** [s.upper()] and [s.lower()] *)
Definition upper : string -> string := map_chars upper_char.
Definition lower : string -> string := map_chars lower_char.

Fixpoint lstrip (s : string) : string :=
  match s with
  | String c s' => if is_space c then lstrip s' else s
  | EmptyString => EmptyString
  end.

Fixpoint rstrip (s : string) : string :=
  match s with
  | EmptyString => EmptyString
  | String c s' =>
      match rstrip s' with
      | EmptyString => if is_space c then EmptyString else String c EmptyString
      | r => String c r
      end
  end.

(** [s.strip()] *)
Definition strip (s : string) : string := rstrip (lstrip s).

(** [s.startswith(p)] *)
Fixpoint startswith (p s : string) : bool :=
  match p, s with
  | EmptyString, _ => true
  | String a p', String b s' => Ascii.eqb a b && startswith p' s'
  | String _ _, EmptyString => false
  end.

(** [needle in hay] *)
Fixpoint contains (needle hay : string) : bool :=
  startswith needle hay ||
  match hay with
  | EmptyString => false
  | String _ hay' => contains needle hay'
  end.

(** [s.replace(" ", "_")]: replacement of one character by another. *)
Definition replace_char (a b : ascii) : string -> string :=
  map_chars (fun c => if Ascii.eqb c a then b else c).

Fixpoint rev_to (acc s : string) : string :=
  match s with
  | EmptyString => acc
  | String c s' => rev_to (String c acc) s'
  end.

(** [s.split(sep)] for a non-empty [sep]: the pieces between the
    non-overlapping occurrences of [sep], found from the left.  [skip]
    counts the characters of a matched separator still to be dropped
    and [cur] holds the current piece, reversed. *)
Fixpoint split_aux (sep s : string) (skip : nat) (cur : string) : list string :=
  match s with
  | EmptyString => [rev_to EmptyString cur]
  | String c s' =>
      match skip with
      | S k => split_aux sep s' k cur
      | O =>
          if startswith sep s
          then rev_to EmptyString cur :: split_aux sep s' (String.length sep - 1) EmptyString
          else split_aux sep s' O (String c cur)
      end
  end.

Definition split (sep s : string) : list string := split_aux sep s O EmptyString.

Definition is_digit (c : ascii) : bool :=
  let n := nat_of_ascii c in ((48 <=? n) && (n <=? 57))%nat.

Fixpoint all_chars (p : ascii -> bool) (s : string) : bool :=
  match s with
  | EmptyString => true
  | String c s' => p c && all_chars p s'
  end.

(** [s.isdigit()] *)
Definition isdigit (s : string) : bool :=
  match s with
  | EmptyString => false
  | _ => all_chars is_digit s
  end.

(** The digits of a literal, with the single underscores Python allows
    between digits.  [prev] tells whether the previous character was a
    digit. *)
Fixpoint digits_value (s : string) (prev : bool) (acc : Z) : option Z :=
  match s with
  | EmptyString => if prev then Some acc else None
  | String c s' =>
      if is_digit c
      then digits_value s' true (10 * acc + Z.of_nat (nat_of_ascii c - 48))
      else if Ascii.eqb c "_" && prev then digits_value s' false acc
      else None
  end.

(** [int(s)]: [None] stands for [ValueError]. *)
Definition parse_int (s : string) : option Z :=
  match strip s with
  | String "-" d => Z.opp <$> digits_value d false 0
  | String "+" d => digits_value d false 0
  | d => digits_value d false 0
  end.

(** Truthiness of a string. *)
Definition truthy (s : string) : bool :=
  match s with EmptyString => false | _ => true end.

End PyStr.

(** ** Python values, exceptions and results *)

(** The values stored in a scraped record. *)
Inductive pyval : Type :=
  | VNone
  | VBool (b : bool)
  | VInt (n : Z)
  | VStr (s : string)
  | VList (l : list string)
  | VDict (d : gmap string string).

(** A record is a Python [dict] with string keys. *)
Abbreviation pydict := (gmap string pyval).

(** The exception classes the scrapers meet.  All of them derive from
    [Exception]; the first four derive from [WebDriverException]. *)
Inductive exn_class : Type :=
  | NoSuchElementException
  | TimeoutException
  | StaleElementReferenceException
  | WebDriverException
  | ValueError
  | TypeError
  | IndexError
  | OSError.

Record exn : Type := Exn { exn_cls : exn_class; exn_msg : string }.

(** [str(e)] *)
Definition str_exn (e : exn) : string := exn_msg e.

Definition is_NoSuchElement (e : exn) : bool :=
  match exn_cls e with NoSuchElementException => true | _ => false end.

Definition is_Timeout (e : exn) : bool :=
  match exn_cls e with TimeoutException => true | _ => false end.

Definition is_ValueError (e : exn) : bool :=
  match exn_cls e with ValueError => true | _ => false end.

Definition is_WebDriverException (e : exn) : bool :=
  match exn_cls e with
  | NoSuchElementException | TimeoutException
  | StaleElementReferenceException | WebDriverException => true
  | _ => false
  end.

Inductive result (A : Type) : Type :=
  | Ok (a : A)
  | Raise (e : exn).
Arguments Ok {A} a.
Arguments Raise {A} e.

(** ** The browser capability *)

(** Selenium locator strategies ([By.*]). *)
Inductive By : Type := TAG_NAME | CSS_SELECTOR | CLASS_NAME.

(** The scripts handed to [driver.execute_script]:
    - [ScrollHeight]:   [return document.body.scrollHeight]
    - [ScrollToBottom]: [window.scrollTo(0, document.body.scrollHeight);]
    - [ScrollTo y]:     [window.scrollTo(0, y);]
    - [ScrollIntoView]: [arguments[0].scrollIntoView({block: 'center'});]
    - [Click]:          [arguments[0].click();] *)
Inductive script : Type :=
  | ScrollHeight
  | ScrollToBottom
  | ScrollTo (y : Z)
  | ScrollIntoView
  | Click.

(** What a script returns. *)
Inductive jsval : Type := JNull | JInt (n : Z).

#[global] Instance jsval_eq_dec : EqDecision jsval.
Proof. solve_decision. Defined.

(** One reading of [datetime.now()], in the three renderings the
    scrapers use: [isoformat()], [strftime("%Y-%m-%d")] and
    [strftime("%H:%M:%S")]. *)
Record timestamp : Type := { iso : string; date : string; time : string }.

Inductive level : Type := DEBUG | INFO | WARNING | ERROR.

Section Model.

(** [W] is the state of the world outside the program (the site, the
    browser, the clock); [E] is the type of element handles
    ([WebElement]). *)
Context {W E : Type}.

(** Calls that return nothing. *)
Inductive ucall : Type :=
  | Install                              (* ChromeDriverManager().install() *)
  | Chrome                               (* webdriver.Chrome(...) *)
  | SetPageLoadTimeout (seconds : Z)     (* driver.set_page_load_timeout *)
  | Get (url : string)                   (* driver.get(url) *)
  | WaitPresent (b : By) (sel : string)  (* wait.until(presence_of_element_located) *)
  | WaitAbsent (b : By) (sel : string)   (* WebDriverWait(driver, 30).until_not(...) *)
  | SwitchToFrame (frame : E)            (* driver.switch_to.frame(frame) *)
  | SwitchToDefault                      (* driver.switch_to.default_content() *)
  | WriteJson (file : string) (data : list pydict) (* json.dump(data, open(file, 'w')) *)
  | Quit.                                (* driver.quit() *)

(** Calls that return a string. *)
Inductive scall : Type :=
  | Text (e : E)        (* e.text *)
  | TagName (e : E)     (* e.tag_name *)
  | Title               (* driver.title *)
  | CurrentUrl.         (* driver.current_url *)

(** The driver: every call may change the world and may raise.  The
    clock and [time.sleep] cannot raise. *)
Record Driver : Type := {
  do_unit : ucall -> W -> result unit * W;
  do_str : scall -> W -> result string * W;
  do_find : option E -> By -> string -> W -> result (list E) * W;
  do_attr : E -> string -> W -> result (option string) * W;
  do_script : script -> list E -> W -> result jsval * W;
  do_now : W -> timestamp * W;
  do_sleep : Z -> W -> W
}.

(** A driver call together with the answer it got. *)
Inductive event : Type :=
  | EvUnit (c : ucall) (r : result unit)
  | EvStr (c : scall) (r : result string)
  | EvFind (scope : option E) (b : By) (sel : string) (r : result (list E))
  | EvAttr (e : E) (name : string) (r : result (option string))
  | EvScript (sc : script) (args : list E) (r : result jsval)
  | EvNow (t : timestamp)
  | EvSleep (ms : Z)
  | EvLog (lvl : level) (msg : string) (args : list Z).

(** The program state: the world, the trace (newest event first), and
    the Python objects that outlive an exception because they are
    mutated in place. *)
Record st : Type := St {
  world : W;
  trace : list event;
  driver : bool;                     (* [self.driver] / [driver] is set *)
  scraped_properties : list pydict;  (* [self.scraped_properties] *)
  property_data : pydict;            (* the dict built by the extractor *)
  properties : list pydict           (* the list built for the current page *)
}.

Definition init_st (w : W) : st :=
  {| world := w; trace := []; driver := false; scraped_properties := [];
     property_data := ∅; properties := [] |}.

(** *** The state and exception monad *)

Definition M (A : Type) : Type := st -> result A * st.

Definition ret {A} (a : A) : M A := fun s => (Ok a, s).

Definition bind {A B} (m : M A) (k : A -> M B) : M B :=
  fun s => match m s with
           | (Ok a, s') => k a s'
           | (Raise e, s') => (Raise e, s')
           end.

Definition raise {A} (e : exn) : M A := fun s => (Raise e, s).

(** [try: m  except <classes accepted by handles> as e: h e] *)
Definition try_except {A} (m : M A) (handles : exn -> bool) (h : exn -> M A) : M A :=
  fun s => match m s with
           | (Raise e, s') => if handles e then h e s' else (Raise e, s')
           | r => r
           end.

(** [try: m  finally: f] *)
Definition try_finally {A} (m : M A) (f : M unit) : M A :=
  fun s => match m s with
           | (r, s') => match f s' with
                        | (Ok _, s'') => (r, s'')
                        | (Raise e, s'') => (Raise e, s'')
                        end
           end.

End Model.

Arguments Driver : clear implicits.
Arguments event : clear implicits.
Arguments st : clear implicits.
Arguments ucall : clear implicits.
Arguments scall : clear implicits.
Arguments M : clear implicits.

#[global] Instance M_ret {W E} : MRet (M W E) := @ret W E.
#[global] Instance M_bind {W E} : MBind (M W E) := fun A B k m => bind m k.

(** [except Exception] and bare [except:] *)
Definition any_exception (e : exn) : bool := true.

(** ** Driver calls and local state, as monadic operations *)
Section Primitives.

Context {W E : Type} (D : Driver W E).
#[local] Abbreviation M := (M W E).

(** Records the answer of a driver call and the world it left. *)
Definition step (w : W) (ev : event E) (s : st W E) : st W E :=
  {| world := w; trace := ev :: trace s; driver := driver s;
     scraped_properties := scraped_properties s;
     property_data := property_data s; properties := properties s |}.

Definition call_unit (c : ucall E) : M unit := fun s =>
  let (r, w) := do_unit D c (world s) in (r, step w (EvUnit c r) s).

Definition call_str (c : scall E) : M string := fun s =>
  let (r, w) := do_str D c (world s) in (r, step w (EvStr c r) s).

(** [scope.find_elements(b, sel)]; the scope [None] is the driver. *)
Definition find_elements (scope : option E) (b : By) (sel : string) : M (list E) := fun s =>
  let (r, w) := do_find D scope b sel (world s) in (r, step w (EvFind scope b sel r) s).

(** [e.get_attribute(name)] *)
Definition get_attribute (e : E) (name : string) : M (option string) := fun s =>
  let (r, w) := do_attr D e name (world s) in (r, step w (EvAttr e name r) s).

(** [driver.execute_script(sc, *args)] *)
Definition execute_script (sc : script) (args : list E) : M jsval := fun s =>
  let (r, w) := do_script D sc args (world s) in (r, step w (EvScript sc args r) s).

(** [datetime.now()] *)
Definition now : M timestamp := fun s =>
  let (t, w) := do_now D (world s) in (Ok t, step w (EvNow t) s).

(** [time.sleep], in milliseconds *)
Definition sleep (ms : Z) : M unit := fun s =>
  (Ok tt, step (do_sleep D ms (world s)) (EvSleep ms) s).

(** A log line that a property refers to. *)
Definition log (lvl : level) (msg : string) (args : list Z) : M unit := fun s =>
  (Ok tt, step (world s) (EvLog lvl msg args) s).

Definition text (e : E) : M string := call_str (Text e).
Definition tag_name (e : E) : M string := call_str (TagName e).

(** [scope.find_element(b, sel)]: the first match, or
    [NoSuchElementException]. *)
Definition find_element (scope : option E) (b : By) (sel : string) : M E :=
  l ← find_elements scope b sel;
  match l with
  | e :: _ => mret e
  | [] => raise (Exn NoSuchElementException sel)
  end.

(** *** The objects mutated in place *)

Definition get_driver : M bool := fun s => (Ok (driver s), s).

Definition set_driver (b : bool) : M unit := fun s =>
  (Ok tt, {| world := world s; trace := trace s; driver := b;
             scraped_properties := scraped_properties s;
             property_data := property_data s; properties := properties s |}).

Definition set_scraped_properties (l : list pydict) : M unit := fun s =>
  (Ok tt, {| world := world s; trace := trace s; driver := driver s;
             scraped_properties := l;
             property_data := property_data s; properties := properties s |}).

Definition set_property_data (d : pydict) : M unit := fun s =>
  (Ok tt, {| world := world s; trace := trace s; driver := driver s;
             scraped_properties := scraped_properties s;
             property_data := d; properties := properties s |}).

Definition get_property_data : M pydict := fun s => (Ok (property_data s), s).

(** [property_data[k] = v] *)
Definition assign (k : string) (v : pyval) : M unit := fun s =>
  set_property_data (<[k := v]> (property_data s)) s.

Definition set_properties (l : list pydict) : M unit := fun s =>
  (Ok tt, {| world := world s; trace := trace s; driver := driver s;
             scraped_properties := scraped_properties s;
             property_data := property_data s; properties := l |}).

Definition get_properties : M (list pydict) := fun s => (Ok (properties s), s).

(** [properties.append(d)] *)
Definition append_property (d : pydict) : M unit := fun s =>
  set_properties (properties s ++ [d]) s.

(** *** Loops *)

(** [for x in l: body x] *)
Fixpoint for_each {A} (l : list A) (body : A -> M unit) : M unit :=
  match l with
  | [] => mret tt
  | x :: l' => body x;; for_each l' body
  end.

(** [for x in l:] with a [break] on the first [x] for which the body
    produces a value; [None] when the loop runs to its end. *)
Fixpoint first_some {A B} (l : list A) (body : A -> M (option B)) : M (option B) :=
  match l with
  | [] => mret None
  | x :: l' =>
      r ← body x;
      match r with
      | Some b => mret (Some b)
      | None => first_some l' body
      end
  end.

(** [for x in l: acc = body acc x] *)
Fixpoint fold_m {A B} (body : B -> A -> M B) (acc : B) (l : list A) : M B :=
  match l with
  | [] => mret acc
  | x :: l' => acc' ← body acc x; fold_m body acc' l'
  end.

End Primitives.

Definition opt_str (o : option string) : pyval :=
  match o with Some s => VStr s | None => VNone end.

(** Truthiness of an optional string ([None] and the empty string are false). *)
Definition truthy_opt (o : option string) : bool :=
  match o with Some s => PyStr.truthy s | None => false end.

Definition nonempty {A} (l : list A) : bool :=
  match l with [] => false | _ => true end.

(** ** scraper.py: class [KingsPropertiesScraper] *)
Module Scraper.
Section Scraper.

Context {W E : Type} (D : Driver W E).
#[local] Abbreviation M := (M W E).
#[local] Abbreviation get_driver := (@get_driver W E).
#[local] Abbreviation set_driver := (@set_driver W E).
#[local] Abbreviation assign := (@assign W E).
#[local] Abbreviation set_property_data := (@set_property_data W E).
#[local] Abbreviation get_property_data := (@get_property_data W E).
#[local] Abbreviation set_properties := (@set_properties W E).
#[local] Abbreviation get_properties := (@get_properties W E).
#[local] Abbreviation append_property := (@append_property W E).
#[local] Abbreviation set_scraped_properties := (@set_scraped_properties W E).
#[local] Abbreviation log := (@log W E).

(** The module constant set by the guarded import of
    [webdriver_manager], and [self.timeout]. *)
Variable WEBDRIVER_MANAGER_AVAILABLE : bool.
Variable timeout : Z.

(** *** Session *)

Definition setup_driver : M unit :=
  try_except
    ((if WEBDRIVER_MANAGER_AVAILABLE then call_unit D Install else mret tt);;
     call_unit D Chrome;;
     set_driver true;;
     call_unit D (SetPageLoadTimeout timeout))
    is_WebDriverException
    (fun e => raise e).

Definition close_driver : M unit :=
  d ← get_driver;
  if (d : bool) then call_unit D Quit else mret tt.

(** *** Waiting for the page *)

Definition loading_selectors : list string :=
  [".loading"; ".spinner"; ".loader"; "[class*='loading']"; "[class*='spinner']";
   "[class*='loader']"; ".overlay"; ".modal-backdrop"].

Definition wait_for_loading_to_complete : M unit :=
  try_except
    (for_each loading_selectors (fun selector =>
       try_except
         (loading_elements ← find_elements D None CSS_SELECTOR selector;
          if nonempty loading_elements
          then call_unit D (WaitAbsent CSS_SELECTOR selector)
          else mret tt)
         any_exception
         (fun _ => mret tt)))
    any_exception
    (fun _ => mret tt).

(** The [while scroll_attempts < max_scroll_attempts] loop; [fuel] is
    the number of attempts left. *)
Fixpoint scroll_to_end (fuel : nat) (last_height : jsval) : M unit :=
  match fuel with
  | O => mret tt
  | S n =>
      execute_script D ScrollToBottom [];;
      sleep D 2000;;
      new_height ← execute_script D ScrollHeight [];
      if decide (new_height = last_height) then mret tt
      else scroll_to_end n new_height
  end.

(** [page_height // scroll_steps] *)
Definition floordiv (h : jsval) (d : Z) : M Z :=
  match h with
  | JInt n => mret (n / d)
  | JNull => raise (Exn TypeError "unsupported operand type(s) for //")
  end.

Definition scroll_page : M unit :=
  try_except
    (last_height ← execute_script D ScrollHeight [];
     scroll_to_end 10 last_height;;
     execute_script D (ScrollTo 0) [];;
     sleep D 1000;;
     page_height ← execute_script D ScrollHeight [];
     step_size ← floordiv page_height 5;
     for_each (seq 0 5) (fun i =>
       execute_script D (ScrollTo (step_size * (Z.of_nat i + 1))) [];;
       sleep D 1000);;
     execute_script D (ScrollTo 0) [];;
     sleep D 1000)
    any_exception
    (fun _ => mret tt).

Definition possible_selectors : list string :=
  [".js-listing-container"; ".property-listing"; ".listing-item"; ".property-item";
   ".property-card"; "[class*='property']"; "[class*='listing']"].

Definition wait_for_page_load : M unit :=
  try_except
    (call_unit D (WaitPresent TAG_NAME "body");;
     sleep D 10000;;
     wait_for_loading_to_complete;;
     scroll_page;;
     wait_for_loading_to_complete;;
     sleep D 3000;;
     first_some possible_selectors (fun selector =>
       try_except
         (elements ← find_elements D None CSS_SELECTOR selector;
          mret (if nonempty elements then Some tt else None))
         any_exception
         (fun _ => mret None));;
     mret tt)
    is_Timeout
    (fun _ => mret tt).

Definition debug_selectors : list string :=
  ["div[class*='property']"; "div[class*='listing']"; "div[class*='item']";
   "div[class*='card']"; "a[href*='property']"; ".grid-item"; ".property";
   ".listing"; "[data-property]"].

Definition debug_pagination_selectors : list string :=
  [".pagination"; ".pager"; "[class*='page']"; "button[class*='page']"; "a[class*='page']"].

Definition debug_page_structure : M unit :=
  try_except
    (call_str D Title;;
     call_str D CurrentUrl;;
     for_each debug_selectors (fun selector =>
       try_except
         (elements ← find_elements D None CSS_SELECTOR selector;
          match elements with
          | first :: _ =>
              html ← get_attribute D first "outerHTML";
              match html with
              | Some _ => mret tt
              | None => raise (Exn TypeError "'NoneType' object is not subscriptable")
              end
          | [] => mret tt
          end)
         any_exception
         (fun _ => mret tt));;
     for_each debug_pagination_selectors (fun selector =>
       try_except
         (find_elements D None CSS_SELECTOR selector;; mret tt)
         any_exception
         (fun _ => mret tt)))
    any_exception
    (fun _ => mret tt).

(** *** Extraction of one listing *)

(** Lines 320-325: the token after the [propertyId=] marker.  The
    index [[1]] of the split cannot be out of range when the marker
    occurs in the URL. *)
Definition property_id_of (property_url : option string) : M pyval :=
  match property_url with
  | Some url =>
      if PyStr.truthy url && PyStr.contains "propertyId=" url
      then match PyStr.split "propertyId=" url with
           | _ :: property_id :: _ => mret (VStr property_id)
           | _ => raise (Exn IndexError "list index out of range")
           end
      else mret VNone
  | None => mret VNone
  end.

(** Lines 306-325. *)
Definition extract_url (property_element : E) : M unit :=
  property_url ←
    try_except
      (link_element ← find_element D (Some property_element) TAG_NAME "a";
       property_url ← get_attribute D link_element "href";
       assign "url" (opt_str property_url);;
       mret property_url)
      is_NoSuchElement
      (fun _ =>
         tag ← tag_name D property_element;
         if String.eqb tag "a"
         then property_url ← get_attribute D property_element "href";
              assign "url" (opt_str property_url);;
              mret property_url
         else assign "url" VNone;; mret None);
  property_id ← property_id_of property_url;
  assign "property_id" property_id.

Definition image_selectors : list string :=
  ["img.image-cover"; "img"; ".property-image img"; ".listing-image img"].

(** Lines 327-348. *)
Definition extract_image (property_element : E) : M unit :=
  image_found ←
    first_some image_selectors (fun selector =>
      try_except
        (img_element ← find_element D (Some property_element) CSS_SELECTOR selector;
         src ← get_attribute D img_element "src";
         assign "image_url" (opt_str src);;
         alt ← get_attribute D img_element "alt";
         assign "image_alt" (opt_str alt);;
         mret (Some tt))
        is_NoSuchElement
        (fun _ => mret None));
  match image_found with
  | Some _ => mret tt
  | None => assign "image_url" VNone;; assign "image_alt" VNone
  end.

(** Lines 359-366: the two flags computed from [listing_type]. *)
Definition listing_flags (listing_type : string) : bool * bool :=
  let for_lease := PyStr.contains "LEASE" listing_type in
  let for_sale := PyStr.contains "SALE" listing_type in
  if PyStr.contains "BOTH" listing_type
     || (PyStr.contains "LEASE" listing_type && PyStr.contains "SALE" listing_type)
  then (true, true)
  else (for_lease, for_sale).

(** Lines 350-366. *)
Definition extract_listing_type (property_element : E) : M unit :=
  listing_type ←
    try_except
      (banner_element ← find_element D (Some property_element) CSS_SELECTOR ".list-item-banner";
       banner_text ← text D banner_element;
       let listing_type := PyStr.upper (PyStr.strip banner_text) in
       assign "listing_type" (VStr listing_type);;
       mret listing_type)
      is_NoSuchElement
      (fun _ => assign "listing_type" (VStr "Unknown");; mret "Unknown");
  assign "for_lease" (VBool (fst (listing_flags listing_type)));;
  assign "for_sale" (VBool (snd (listing_flags listing_type))).

Definition title_selectors : list string :=
  ["h5.mb-0"; "h5"; "h4"; "h3"; ".title"; ".property-title"; ".listing-title";
   "[class*='title']"].

(** Lines 368-391. *)
Definition extract_title (property_element : E) : M unit :=
  title_found ←
    first_some title_selectors (fun selector =>
      try_except
        (title_element ← find_element D (Some property_element) CSS_SELECTOR selector;
         title ← text D title_element;
         assign "title" (VStr (PyStr.strip title));;
         mret (Some tt))
        is_NoSuchElement
        (fun _ => mret None));
  match title_found with
  | Some _ => mret tt
  | None => assign "title" (VStr "Unknown")
  end.

(** [location_text.startswith(("$", "Call", "Available"))] *)
Definition looks_like_price (s : string) : bool :=
  PyStr.startswith "$" s || PyStr.startswith "Call" s || PyStr.startswith "Available" s.

(** Lines 393-406. *)
Definition extract_location (property_element : E) : M unit :=
  try_except
    (location_elements ← find_elements D (Some property_element) CSS_SELECTOR ".secondary-information";
     match location_elements with
     | first :: _ =>
         t ← text D first;
         let location_text := PyStr.strip t in
         if PyStr.truthy location_text && negb (looks_like_price location_text)
         then assign "location" (VStr location_text)
         else assign "location" (VStr "Unknown")
     | [] => assign "location" (VStr "Unknown")
     end)
    is_NoSuchElement
    (fun _ => assign "location" (VStr "Unknown")).

(** *** Details: table pass and heuristic pass *)

(** [cells[0].text.strip().lower().replace(" ", "_")] *)
Definition normalize_key (s : string) : string :=
  PyStr.replace_char " " "_" (PyStr.lower (PyStr.strip s)).

(** Lines 414-423: one table row.  A row that raises is skipped. *)
Definition table_row (property_details : gmap string string) (row : E)
  : M (gmap string string) :=
  try_except
    (cells ← find_elements D (Some row) TAG_NAME "td";
     match cells with
     | cell0 :: cell1 :: _ =>
         k ← text D cell0;
         v ← text D cell1;
         mret (<[normalize_key k := PyStr.strip v]> property_details)
     | _ => mret property_details
     end)
    any_exception
    (fun _ => mret property_details).

(** Lines 409-426. *)
Definition table_pass (property_element : E) : M (gmap string string) :=
  try_except
    (table_element ← find_element D (Some property_element) CSS_SELECTOR "table.mt-2";
     rows ← find_elements D (Some table_element) TAG_NAME "tr";
     fold_m table_row ∅ rows)
    is_NoSuchElement
    (fun _ => mret ∅).

(** [key not in property_details] *)
Definition absent (key : string) (property_details : gmap string string) : bool :=
  bool_decide (property_details !! key = None).

Definition property_types : list string :=
  ["manufacturing"; "office"; "warehouse"; "retail"; "industrial"].

(** Lines 442-452: the body of [for info in secondary_info_text]. *)
Definition parse_info (property_details : gmap string string) (info : string)
  : gmap string string :=
  let info_lower := PyStr.lower info in
  if PyStr.contains "sf" info_lower && absent "available" property_details
  then <["available_space" := info]> property_details
  else if PyStr.contains "call agent" info_lower && absent "price" property_details
  then <["price" := info]> property_details
  else if PyStr.contains "spaces" info_lower && absent "#_of_spaces" property_details
  then <["number_of_spaces" := info]> property_details
  else if PyStr.contains "bldg" info_lower && absent "building_size" property_details
  then <["building_size" := info]> property_details
  else if bool_decide (info_lower ∈ property_types)
  then <["property_type" := info]> property_details
  else property_details.

(** Lines 441-452: the heuristic pass over the collected fragments. *)
Definition heuristic_pass (secondary_info_text : list string)
    (property_details : gmap string string) : gmap string string :=
  foldl parse_info property_details secondary_info_text.

(** Lines 433-436: the text of one secondary-information element is
    kept unless it is empty or a dash. *)
Definition collect_info (acc : list string) (element : E) : M (list string) :=
  t ← text D element;
  let t := PyStr.strip t in
  if PyStr.truthy t && negb (bool_decide (t ∈ ["-"; EmptyString]))
  then mret (acc ++ [t])%list else mret acc.

(** Lines 428-457. *)
Definition extract_details (property_element : E) : M unit :=
  property_details ← table_pass property_element;
  property_details ←
    try_except
      (secondary_info_elements ←
         find_elements D (Some property_element) CSS_SELECTOR ".secondary-information";
       secondary_info_text ← fold_m collect_info [] secondary_info_elements;
       assign "secondary_info" (VList secondary_info_text);;
       mret (heuristic_pass secondary_info_text property_details))
      any_exception
      (fun _ => mret property_details);
  assign "details" (VDict property_details).

(** The body of the outer [try] of [extract_property_details]. *)
Definition extract_fields (property_element : E) : M unit :=
  extract_url property_element;;
  extract_image property_element;;
  extract_listing_type property_element;;
  extract_title property_element;;
  extract_location property_element;;
  extract_details property_element.

Definition extract_property_details (property_element : E) : M pydict :=
  set_property_data ∅;;
  try_except
    (extract_fields property_element)
    any_exception
    (fun e => assign "error" (VStr (str_exn e)));;
  get_property_data.

(** *** Pagination state *)

Definition int (s : string) : M Z :=
  match PyStr.parse_int s with
  | Some n => mret n
  | None => raise (Exn ValueError "invalid literal for int() with base 10")
  end.

Definition get_current_page_number : M Z :=
  try_except
    (active_page_element ← find_element D None CSS_SELECTOR ".js-paginate-btn.active";
     t ← text D active_page_element;
     int t)
    (fun e => is_NoSuchElement e || is_ValueError e)
    (fun _ => mret 1).

(** *** One page *)

Definition property_selectors : list string :=
  [".grid-item"; ".property-item"; ".listing-item"; ".property-card";
   "div[class*='property']"; "div[class*='listing']"; "a[href*='property']";
   ".col-md-6"; ".property"; ".listing"].

(** Lines 490-503: the selectors are tried in order; the first one
    that yields elements is used.  A selector that raises is skipped.
    The result is [(property_elements, used_selector)]. *)
Fixpoint resolve (scope : option E) (selectors : list string)
  : M (list E * option string) :=
  match selectors with
  | [] => mret ([], None)
  | selector :: rest =>
      elements ←
        try_except
          (find_elements D scope CSS_SELECTOR selector)
          any_exception
          (fun _ => mret []);
      if nonempty elements then mret (elements, Some selector)
      else resolve scope rest
  end.

(** Lines 511-524: the body of the loop over the listing nodes. *)
Definition process_element (property_element : E) : M unit :=
  try_except
    (execute_script D ScrollIntoView [property_element];;
     sleep D 500)
    any_exception
    (fun _ => mret tt);;
  property_data ← extract_property_details property_element;
  page_number ← get_current_page_number;
  let property_data := <["page_number" := VInt page_number]> property_data in
  scraped_at ← now D;
  let property_data := <["scraped_at" := VStr (iso scraped_at)]> property_data in
  append_property property_data.

Definition get_current_page_properties : M (list pydict) :=
  set_properties [];;
  try_except
    (wait_for_page_load;;
     debug_page_structure;;
     '(property_elements, used_selector) ← resolve None property_selectors;
     if nonempty property_elements
     then for_each property_elements process_element
     else log WARNING "No property elements found with any selector" [])
    any_exception
    (fun _ => mret tt);;
  get_properties.

(** *** Totals *)

Record results_info : Type := {
  total_listings : Z;
  current_range : string;
  total_pages : Z
}.

Definition pagination_selectors : list string :=
  [".js-pagination-container"; ".pagination-info"; ".results-info";
   "[class*='pagination']"; "[class*='results']"].

Definition total_selectors : list string :=
  [".js-total-container"; ".total-results"; ".results-total"; "[class*='total']"].

Definition button_selectors : list string :=
  [".js-paginate-btn"; ".page-link"; ".pagination a"; ".pager a"; "[class*='page']"].

(** Lines 581-586: the count in a text like "out of 42 listings". *)
Definition parse_total (total_text : string) : option Z :=
  if PyStr.contains "out of" total_text
  then match PyStr.split "out of" total_text with
       | _ :: rest :: _ =>
           PyStr.parse_int (String.concat EmptyString (PyStr.split "listings" rest))
       | _ => None
       end
  else None.

(** Lines 605-610: the labels of the buttons that are integers. *)
Definition page_number_of (page_numbers : list Z) (button : E) : M (list Z) :=
  try_except
    (t ← text D button;
     page_num ← int t;
     mret (page_numbers ++ [page_num])%list)
    is_ValueError
    (fun _ => mret page_numbers).

(** [max(page_numbers)] for a non-empty list *)
Definition list_max (l : list Z) : option Z :=
  match l with
  | [] => None
  | x :: l' => Some (foldl Z.max x l')
  end.

Definition get_total_results_info : M results_info :=
  try_except
    (range ←
       first_some pagination_selectors (fun selector =>
         try_except
           (pagination_container ← find_element D None CSS_SELECTOR selector;
            t ← text D pagination_container;
            mret (Some (PyStr.strip t)))
           is_NoSuchElement
           (fun _ => mret None));
     let current_range := default EmptyString range in
     try_except
       (listings ←
          first_some total_selectors (fun selector =>
            try_except
              (total_container ← find_element D None CSS_SELECTOR selector;
               t ← text D total_container;
               mret (Some (parse_total (PyStr.strip t))))
              is_NoSuchElement
              (fun _ => mret None));
        let total_listings := default 0 (mjoin listings) in
        pages ←
          first_some button_selectors (fun selector =>
            try_except
              (pagination_buttons ← find_elements D None CSS_SELECTOR selector;
               if nonempty pagination_buttons
               then page_numbers ← fold_m page_number_of [] pagination_buttons;
                    mret (list_max page_numbers)
               else mret None)
              any_exception
              (fun _ => mret None));
        mret {| total_listings := total_listings; current_range := current_range;
                total_pages := default 1 pages |})
       any_exception
       (fun _ => mret {| total_listings := 0; current_range := current_range;
                         total_pages := 1 |}))
    any_exception
    (fun _ => mret {| total_listings := 0; current_range := EmptyString; total_pages := 1 |}).

(** *** Advancing *)

(** Lines 638-645: the first button whose label is [current_page + 1].
    A [ValueError] skips the button; any other exception leaves the
    loop. *)
Fixpoint find_next_page_button (current_page : Z) (pagination_buttons : list E)
  : M (option E) :=
  match pagination_buttons with
  | [] => mret None
  | button :: rest =>
      hit ← try_except
              (t ← text D button;
               page_num ← int t;
               mret (bool_decide (page_num = current_page + 1)))
              is_ValueError
              (fun _ => mret false);
      if (hit : bool) then mret (Some button)
      else find_next_page_button current_page rest
  end.

(** The body of the [try] of [navigate_to_next_page]. *)
Definition try_navigate : M bool :=
  current_page ← get_current_page_number;
  pagination_buttons ← find_elements D None CSS_SELECTOR ".js-paginate-btn";
  next_page_button ← find_next_page_button current_page pagination_buttons;
  match next_page_button with
  | Some button =>
      log INFO "Navigating from page {} to page {}" [current_page; current_page + 1];;
      execute_script D Click [button];;
      sleep D 3000;;
      wait_for_page_load;;
      new_page ← get_current_page_number;
      if bool_decide (new_page > current_page)
      then log INFO "Successfully navigated to page {}" [new_page];; mret true
      else log WARNING "Page number didn't change after clicking next" [];; mret false
  | None =>
      log INFO "No next page button found - reached end" [];; mret false
  end.

Definition navigate_to_next_page : M bool :=
  try_except
    try_navigate
    any_exception
    (fun _ => log ERROR "Error navigating to next page: {}" [];; mret false).

(** *** The run *)

(** [max_pages or pagination_info['total_pages']] *)
Definition max_pages_to_scrape (max_pages : option Z) (info : results_info) : Z :=
  match max_pages with
  | Some n => if bool_decide (n = 0) then total_pages info else n
  | None => total_pages info
  end.

(** Lines 706-725: [while page_count < max_pages_to_scrape].  The
    counter grows by one per iteration, so the number of iterations
    left, [fuel], is the bound minus the counter.  Returns the final
    [page_count] and [all_properties]. *)
Fixpoint scrape_loop (fuel : nat) (page_count : Z) (all_properties : list pydict)
  : M (Z * list pydict) :=
  match fuel with
  | O => mret (page_count, all_properties)
  | S fuel' =>
      let page_count := page_count + 1 in
      get_current_page_number;;
      page_properties ← get_current_page_properties;
      let all_properties := (all_properties ++ page_properties)%list in
      advanced ← navigate_to_next_page;
      if (advanced : bool)
      then sleep D 2000;; scrape_loop fuel' page_count all_properties
      else mret (page_count, all_properties)
  end.

(** The body of the [try] of [scrape_all_pages]; it also returns the
    number of pages visited ([page_count]). *)
Definition scrape_pages (url : string) (max_pages : option Z) : M (Z * list pydict) :=
  setup_driver;;
  call_unit D (Get url);;
  sleep D 5000;;
  wait_for_page_load;;
  pagination_info ← get_total_results_info;
  '(page_count, all_properties) ←
    scrape_loop (Z.to_nat (max_pages_to_scrape max_pages pagination_info)) 0 [];
  set_scraped_properties all_properties;;
  mret (page_count, all_properties).

Definition scrape_all_pages_counting (url : string) (max_pages : option Z)
  : M (Z * list pydict) :=
  try_finally
    (try_except (scrape_pages url max_pages) any_exception (fun e => raise e))
    close_driver.

Definition scrape_all_pages (url : string) (max_pages : option Z) : M (list pydict) :=
  r ← scrape_all_pages_counting url max_pages;
  mret (snd r).

End Scraper.
End Scraper.

(** ** complete_scraper.py *)
Module Complete.
Section Complete.

Context {W E : Type} (D : Driver W E).
#[local] Abbreviation M := (M W E).
#[local] Abbreviation get_driver := (@get_driver W E).
#[local] Abbreviation set_driver := (@set_driver W E).

Variable WEBDRIVER_MANAGER_AVAILABLE : bool.

Definition URL : string := "https://www.kingindustrial.com/home-5/properties/".
Definition OUTPUT_FILE : string := "kings_data.json".

(** [actual_url and actual_url.startswith("http")] *)
Definition is_http (url : option string) : bool :=
  match url with
  | Some u => PyStr.truthy u && PyStr.startswith "http" u
  | None => false
  end.

Definition link_selectors : list string :=
  ["a[href*='property']"; "a[href*='listing']"; "a[href*='detail']"; "a"].

(** Lines 27-63: the item URL, with its fallback. *)
Definition extract_item_url (property_element : E) : M string :=
  let item_url := "https://example.com/item/unknown" in
  try_except
    (link_element ← find_element D (Some property_element) TAG_NAME "a";
     actual_url ← get_attribute D link_element "href";
     if is_http actual_url then mret (default item_url actual_url)
     else
       tag ← tag_name D property_element;
       if String.eqb tag "a"
       then actual_url ← get_attribute D property_element "href";
            if is_http actual_url then mret (default item_url actual_url)
            else mret item_url
       else mret item_url)
    any_exception
    (fun _ =>
       try_except
         (found ←
            first_some link_selectors (fun selector =>
              try_except
                (link ← find_element D (Some property_element) CSS_SELECTOR selector;
                 actual_url ← get_attribute D link "href";
                 mret (if is_http actual_url then actual_url else None))
                any_exception
                (fun _ => mret None));
          mret (default item_url found))
         any_exception
         (fun _ => mret item_url)).

Definition title_selectors : list string :=
  ["h5"; "h4"; "h3"; ".title"; "[class*='title']"].

(** Lines 70-77: the loop assigns [property_name] at every selector
    that resolves and leaves at the first non-empty text. *)
Fixpoint find_title (property_element : E) (selectors : list string)
    (property_name : string) : M string :=
  match selectors with
  | [] => mret property_name
  | selector :: rest =>
      r ← try_except
            (title_elem ← find_element D (Some property_element) CSS_SELECTOR selector;
             t ← text D title_elem;
             mret (Some (PyStr.strip t)))
            any_exception
            (fun _ => mret None);
      match r with
      | Some name =>
          if PyStr.truthy name then mret name
          else find_title property_element rest name
      | None => find_title property_element rest property_name
      end
  end.

Definition banner_selectors : list string :=
  [".list-item-banner"; "[class*='banner']"; "[class*='type']"].

(** Lines 81-100: [(for_lease, for_sale)]. *)
Definition extract_flags (property_element : E) : M (bool * bool) :=
  try_except
    (found ←
       first_some banner_selectors (fun selector =>
         try_except
           (banner ← find_element D (Some property_element) CSS_SELECTOR selector;
            t ← text D banner;
            let banner_text := PyStr.upper (PyStr.strip t) in
            mret (Some (PyStr.contains "LEASE" banner_text,
                        PyStr.contains "SALE" banner_text)))
           any_exception
           (fun _ => mret None));
     mret (default (false, false) found))
    any_exception
    (fun _ => mret (true, false)).

Definition pdf_selectors : list string :=
  ["a[href*='.pdf']"; "a[href*='brochure']"; "a[href*='flyer']"; "a[title*='PDF']";
   "a[title*='Brochure']"].

Definition is_pdf (href : option string) : bool :=
  match href with
  | Some h =>
      PyStr.truthy h
      && (PyStr.contains ".pdf" (PyStr.lower h) || PyStr.contains "brochure" (PyStr.lower h))
  | None => false
  end.

(** Lines 102-124. *)
Definition extract_pdf_url (property_element : E) : M string :=
  try_except
    (found ←
       first_some pdf_selectors (fun selector =>
         try_except
           (pdf_link ← find_element D (Some property_element) CSS_SELECTOR selector;
            pdf_href ← get_attribute D pdf_link "href";
            mret (if is_pdf pdf_href then pdf_href else None))
           any_exception
           (fun _ => mret None));
     mret (default EmptyString found))
    any_exception
    (fun _ => mret EmptyString).

(** [None] is the Python [None] returned when the extraction raised. *)
Definition extract_property_data (property_element : E) : M (option pydict) :=
  try_except
    (item_url ← extract_item_url property_element;
     property_name ←
       try_except (find_title property_element title_selectors "Unknown Property")
         any_exception (fun _ => mret "Unknown Property");
     flags ← extract_flags property_element;
     pdf_url ← extract_pdf_url property_element;
     t ← now D;
     mret (Some (<["name" := VStr property_name]>
                (<["email" := VStr "contact@kingindustrial.com"]>
                (<["item_url" := VStr item_url]>
                (<["pdf_url" := VStr pdf_url]>
                (<["for_lease" := VBool (fst flags)]>
                (<["for_sale" := VBool (snd flags)]>
                (<["date" := VStr (date t)]>
                (<["time" := VStr (time t)]>
                (<["property" := VStr property_name]> (∅ : pydict))))))))))))
    any_exception
    (fun _ => mret None).

Definition pagination_selectors : list string :=
  [".js-paginate-btn"; ".page-link"; ".pagination a"; ".pager a"; "[class*='page']";
   "button[class*='page']"].

Definition find_pagination_buttons : M (list E) :=
  try_except
    (found ←
       first_some pagination_selectors (fun selector =>
         try_except
           (buttons ← find_elements D None CSS_SELECTOR selector;
            mret (if nonempty buttons then Some buttons else None))
           any_exception
           (fun _ => mret None));
     mret (default [] found))
    any_exception
    (fun _ => mret []).

Definition get_next_page_button (current_page : Z) : M (option E) :=
  try_except
    (buttons ← find_pagination_buttons;
     first_some buttons (fun button =>
       try_except
         (t ← text D button;
          let button_text := PyStr.strip t in
          if PyStr.isdigit button_text
          then page_num ← Scraper.int button_text;
               mret (if bool_decide (page_num = current_page + 1)
                     then Some button else None)
          else mret None)
         any_exception
         (fun _ => mret None)))
    any_exception
    (fun _ => mret None).

(** *** The run *)

(** [src and "buildout.com" in src and "inventory" in src] *)
Definition is_buildout (src : option string) : bool :=
  match src with
  | Some u => PyStr.truthy u && PyStr.contains "buildout.com" u && PyStr.contains "inventory" u
  | None => false
  end.

(** Lines 239-243: the first frame whose source is the inventory
    widget. *)
Definition find_buildout_iframe (iframes : list E) : M (option E) :=
  first_some iframes (fun iframe =>
    src ← get_attribute D iframe "src";
    mret (if is_buildout src then Some iframe else None)).

Definition property_selectors : list string :=
  [".grid-item"; ".col-md-6"; ".property-item"; ".listing-item";
   "div[class*='property']"; "div[class*='listing']"].

(** Lines 284-289: a record is appended unless the extractor returned
    [None]. *)
Definition extract_item (page_properties : list pydict) (item : E) : M (list pydict) :=
  property_data ← extract_property_data item;
  match property_data with
  | Some d => mret (page_properties ++ [d])%list
  | None => mret page_properties
  end.

(** Lines 275-294: [Some page_properties] when a selector found
    items. *)
Definition scrape_page : M (option (list pydict)) :=
  first_some property_selectors (fun selector =>
    try_except
      (items ← find_elements D None CSS_SELECTOR selector;
       if nonempty items
       then page_properties ← fold_m extract_item [] items;
            mret (Some page_properties)
       else mret None)
      any_exception
      (fun _ => mret None)).

(** Lines 255-319: [while current_page <= max_pages] with
    [max_pages = 10].  The counter grows by one per completed
    iteration, so [fuel] is the number of iterations left.  [visited]
    counts the iterations; it is not a variable of the program. *)
Fixpoint scrape_loop (fuel : nat) (visited : nat) (current_page : Z)
    (all_properties : list pydict) : M (nat * list pydict) :=
  match fuel with
  | O => mret (visited, all_properties)
  | S fuel' =>
      let visited := S visited in
      sleep D 5000;;
      page ← scrape_page;
      match page with
      | None => mret (visited, all_properties)
      | Some page_properties =>
          let all_properties := (all_properties ++ page_properties)%list in
          next_button ← get_next_page_button current_page;
          match next_button with
          | Some button =>
              clicked ← try_except
                          (execute_script D Click [button];;
                           sleep D 5000;;
                           mret true)
                          any_exception
                          (fun _ => mret false);
              if (clicked : bool)
              then scrape_loop fuel' visited (current_page + 1) all_properties
              else mret (visited, all_properties)
          | None => mret (visited, all_properties)
          end
      end
  end.

Definition max_pages : nat := 10.

(** The body of the [try] of [main]: the exit code. *)
Definition run : M Z :=
  (if WEBDRIVER_MANAGER_AVAILABLE then call_unit D Install else mret tt);;
  call_unit D Chrome;;
  set_driver true;;
  call_unit D (Get URL);;
  sleep D 10000;;
  execute_script D ScrollToBottom [];;
  sleep D 2000;;
  iframes ← find_elements D None TAG_NAME "iframe";
  buildout_iframe ← find_buildout_iframe iframes;
  match buildout_iframe with
  | None => mret 1
  | Some frame =>
      call_unit D (SwitchToFrame frame);;
      sleep D 3000;;
      '(_, all_properties) ← scrape_loop max_pages 0 1 [];
      call_unit D SwitchToDefault;;
      (if nonempty all_properties
       then call_unit D (WriteJson OUTPUT_FILE all_properties)
       else mret tt);;
      sleep D 10000;;
      mret 0
  end.

Definition main : M Z :=
  try_finally
    (try_except run any_exception (fun _ => mret 1))
    (d ← get_driver; if (d : bool) then call_unit D Quit else mret tt).

End Complete.
End Complete.

(** ** comprehensive_scraper.py *)
Module Comprehensive.
Section Comprehensive.

Context {W E : Type} (D : Driver W E).
#[local] Abbreviation M := (M W E).

(** Lines 107-133 of [extract_comprehensive_property_data]:
    [(for_lease, for_sale, listing_type)]. *)
Definition extract_listing_type (property_element : E) : M (bool * bool * string) :=
  '(for_lease, for_sale, listing_type) ←
    try_except
      (banner_elem ← find_element D (Some property_element) CSS_SELECTOR ".list-item-banner";
       t ← text D banner_elem;
       let banner_text := PyStr.upper (PyStr.strip t) in
       mret (PyStr.contains "LEASE" banner_text, PyStr.contains "SALE" banner_text,
             banner_text))
      any_exception
      (fun _ => mret (true, false, EmptyString));
  if negb for_lease && negb for_sale
  then mret (true, for_sale, listing_type)
  else mret (for_lease, for_sale, listing_type).

End Comprehensive.
End Comprehensive.

(** ** simple_scraper.py *)
Module Simple.
Section Simple.

Context {W E : Type} (D : Driver W E).
#[local] Abbreviation M := (M W E).
#[local] Abbreviation get_driver := (@get_driver W E).
#[local] Abbreviation set_driver := (@set_driver W E).

Variable WEBDRIVER_MANAGER_AVAILABLE : bool.

Definition URL : string := "https://www.kingindustrial.com/home-5/properties/".

(** [src[:100]] and [in src] need a string. *)
Definition need_str (o : option string) : M string :=
  match o with
  | Some s => mret s
  | None => raise (Exn TypeError "'NoneType' object is not subscriptable")
  end.

(** Lines 65-73. *)
Definition find_buildout_iframe (iframes : list E) : M (option E) :=
  first_some iframes (fun iframe =>
    src ← get_attribute D iframe "src";
    get_attribute D iframe "title";;
    src ← need_str src;
    mret (if PyStr.contains "buildout.com" src && PyStr.contains "inventory" src
          then Some iframe else None)).

Definition property_selectors : list string :=
  [".grid-item"; ".property-item"; ".listing-item"; ".col-md-6"; ".property-card";
   "div[class*='property']"; "div[class*='listing']"; "a[href*='property']"].

(** Lines 119-127: the preview of one item. *)
Definition show_item (item : E) : M unit :=
  try_except
    (tag_name D item;;
     get_attribute D item "class";;
     t ← text D item;
     if PyStr.truthy t then text D item;; mret tt else mret tt)
    any_exception
    (fun _ => mret tt).

(** Lines 98-155. *)
Definition look_for_items : M unit :=
  try_except
    (found_items ←
       first_some property_selectors (fun selector =>
         try_except
           (items ← find_elements D None CSS_SELECTOR selector;
            if nonempty items
            then for_each (take 3 items) show_item;; mret (Some tt)
            else mret None)
           any_exception
           (fun _ => mret None));
     match found_items with
     | Some _ => mret tt
     | None =>
         all_divs ← find_elements D None TAG_NAME "div";
         for_each (take 10 all_divs) (fun div =>
           try_except (get_attribute D div "class";; mret tt)
             any_exception (fun _ => mret tt))
     end)
    any_exception
    (fun _ => mret tt).

(** Lines 58-168. *)
Definition look_for_iframe : M unit :=
  try_except
    (iframes ← find_elements D None TAG_NAME "iframe";
     if nonempty iframes
     then
       buildout_iframe ← find_buildout_iframe iframes;
       match buildout_iframe with
       | Some frame =>
           call_unit D (SwitchToFrame frame);;
           containers ← find_elements D None CLASS_NAME "container-fluid";
           (if nonempty containers
            then
              for_each containers (fun container =>
                try_except
                  (tag_name D container;; get_attribute D container "class";; mret tt)
                  any_exception (fun _ => mret tt));;
              look_for_items
            else mret tt);;
           call_unit D SwitchToDefault
       | None => mret tt
       end
     else mret tt)
    any_exception
    (fun _ => mret tt).

Definition run : M Z :=
  (if WEBDRIVER_MANAGER_AVAILABLE then call_unit D Install else mret tt);;
  call_unit D Chrome;;
  set_driver true;;
  call_unit D (Get URL);;
  sleep D 10000;;
  execute_script D ScrollToBottom [];;
  look_for_iframe;;
  sleep D 10000;;
  mret 0.

Definition main : M Z :=
  try_finally
    (try_except run any_exception (fun _ => mret 1))
    (d ← get_driver; if (d : bool) then call_unit D Quit else mret tt).

End Simple.
End Simple.

(** ** A scripted driver

    A site given as canned answers, on which the scrapers can be run.
    A node answers [find_elements] from a table (an absent entry is an
    empty answer) and a click on a node may show another page. *)
Module Fake.

#[global] Instance By_eq_dec : EqDecision By.
Proof. solve_decision. Defined.

Inductive fnode : Type := FNode {
  f_tag : string;
  f_text : result string;
  f_attrs : list (string * string);
  f_find : list (By * string * result (list fnode));
  f_goto : option Z
}.

(** The answers of the document of one page. *)
Definition fpage : Type := list (By * string * result (list fnode)).

(** The page shown, the frame the driver is in, and the clock. *)
Record fworld : Type := { page : Z; in_frame : bool; clock : Z }.

Fixpoint answer (tbl : fpage) (b : By) (sel : string) : result (list fnode) :=
  match tbl with
  | [] => Ok []
  | (b', sel', r) :: tbl' =>
      if bool_decide (b = b') && String.eqb sel sel' then r else answer tbl' b sel
  end.

Fixpoint attr_of (attrs : list (string * string)) (name : string) : option string :=
  match attrs with
  | [] => None
  | (k, v) :: attrs' => if String.eqb k name then Some v else attr_of attrs' name
  end.

Definition stamp : timestamp :=
  {| iso := "2025-01-01T12:00:00"; date := "2025-01-01"; time := "12:00:00" |}.

Section Site.

(** The documents of the site, by frame and page number, and the calls
    that fail. *)
Variable site : bool -> Z -> fpage.
Variable failing : ucall fnode -> option exn.

Definition fake_unit (c : ucall fnode) (w : fworld) : result unit * fworld :=
  match failing c with
  | Some e => (Raise e, w)
  | None =>
      match c with
      | SwitchToFrame _ => (Ok tt, {| page := page w; in_frame := true; clock := clock w |})
      | SwitchToDefault => (Ok tt, {| page := page w; in_frame := false; clock := clock w |})
      | _ => (Ok tt, w)
      end
  end.

Definition fake_str (c : scall fnode) (w : fworld) : result string * fworld :=
  match c with
  | Text e => (f_text e, w)
  | TagName e => (Ok (f_tag e), w)
  | Title => (Ok "Properties", w)
  | CurrentUrl => (Ok "https://www.kingindustrial.com/home-5/properties/", w)
  end.

Definition fake_find (scope : option fnode) (b : By) (sel : string) (w : fworld)
  : result (list fnode) * fworld :=
  match scope with
  | None => (answer (site (in_frame w) (page w)) b sel, w)
  | Some e => (answer (f_find e) b sel, w)
  end.

Definition fake_attr (e : fnode) (name : string) (w : fworld)
  : result (option string) * fworld :=
  (Ok (attr_of (f_attrs e) name), w).

Definition fake_script (sc : script) (args : list fnode) (w : fworld)
  : result jsval * fworld :=
  match sc, args with
  | ScrollHeight, _ => (Ok (JInt 1000), w)
  | Click, e :: _ =>
      match f_goto e with
      | Some n => (Ok JNull, {| page := n; in_frame := in_frame w; clock := clock w |})
      | None => (Ok JNull, w)
      end
  | _, _ => (Ok JNull, w)
  end.

Definition fake_now (w : fworld) : timestamp * fworld :=
  (stamp, {| page := page w; in_frame := in_frame w; clock := clock w + 1 |}).

Definition fake : Driver fworld fnode :=
  {| do_unit := fake_unit; do_str := fake_str; do_find := fake_find;
     do_attr := fake_attr; do_script := fake_script; do_now := fake_now;
     do_sleep := fun _ w => w |}.

End Site.

Definition no_failure (c : ucall fnode) : option exn := None.

Definition start : fworld := {| page := 1; in_frame := false; clock := 0 |}.

(** A node with a text and nothing else. *)
Definition leaf (tag txt : string) : fnode :=
  {| f_tag := tag; f_text := Ok txt; f_attrs := []; f_find := []; f_goto := None |}.

(** An anchor with an [href]. *)
Definition anchor (href : string) : fnode :=
  {| f_tag := "a"; f_text := Ok EmptyString; f_attrs := [("href", href)];
     f_find := []; f_goto := None |}.

(** A listing node with the given answers. *)
Definition listing (finds : list (By * string * result (list fnode))) : fnode :=
  {| f_tag := "div"; f_text := Ok EmptyString; f_attrs := []; f_find := finds;
     f_goto := None |}.

(** The record the class extractor builds for a node, on a site
    with a single empty page. *)
Definition extract (node : fnode) : result pydict :=
  fst (Scraper.extract_property_details (fake (fun _ _ => []) no_failure) node (init_st start)).

Definition field (k : string) (r : result pydict) : option pyval :=
  match r with Ok d => d !! k | Raise _ => None end.

End Fake.

(** ** Sites for the examples *)
Module Sites.

(** A listing with a sale banner and an anchor. *)
Definition sale_listing : Fake.fnode :=
  Fake.listing
    [(TAG_NAME, "a",
      Ok [Fake.anchor "https://www.kingindustrial.com/home-5/properties/?propertyId=1417234-sale"]);
     (CSS_SELECTOR, ".list-item-banner", Ok [Fake.leaf "div" "For Sale"]);
     (CSS_SELECTOR, "h5.mb-0", Ok [Fake.leaf "h5" "605 Athena Drive"]);
     (CSS_SELECTOR, ".secondary-information",
      Ok [Fake.leaf "div" "Athens, GA  30605"; Fake.leaf "div" "10,000 SF"])].

(** A listing without banner, link or any other content. *)
Definition bare_listing : Fake.fnode := Fake.listing [].

(** A listing whose banner is empty. *)
Definition blank_banner_listing : Fake.fnode :=
  Fake.listing [(CSS_SELECTOR, ".list-item-banner", Ok [Fake.leaf "div" EmptyString])].

(** A listing whose link is reported as it is written in the page,
    without scheme or host. *)
Definition relative_link_listing : Fake.fnode :=
  Fake.listing
    [(TAG_NAME, "a", Ok [Fake.anchor "/home-5/properties/?propertyId=1417234-sale"])].

(** A listing with a detail table of one row, [Available Space] with
    value [5,000 SF], and two fragments of secondary information. *)
Definition table_listing : Fake.fnode :=
  Fake.listing
    [(CSS_SELECTOR, "table.mt-2",
      Ok [Fake.listing
            [(TAG_NAME, "tr",
              Ok [Fake.listing
                    [(TAG_NAME, "td",
                      Ok [Fake.leaf "td" "Available Space"; Fake.leaf "td" "5,000 SF"])]])]]);
     (CSS_SELECTOR, ".secondary-information",
      Ok [Fake.leaf "div" "Athens, GA  30605"; Fake.leaf "div" "10,000 SF"])].

(** A listing whose title cannot be read: the element went stale. *)
Definition broken_listing : Fake.fnode :=
  Fake.listing
    [(TAG_NAME, "a", Ok [Fake.anchor "https://www.kingindustrial.com/home-5/properties/?propertyId=7"]);
     (CSS_SELECTOR, "h5.mb-0",
      Ok [{| Fake.f_tag := "h5";
             Fake.f_text := Raise (Exn StaleElementReferenceException "stale element reference");
             Fake.f_attrs := []; Fake.f_find := []; Fake.f_goto := None |}])].

(** The decimal label of a page number. *)
Definition label (k : Z) : string := NilEmpty.string_of_uint (N.to_uint (Z.to_N k)).

(** A pagination control; a click on it shows page [goto], or nothing
    new. *)
Definition button (k : Z) (goto : option Z) : Fake.fnode :=
  {| Fake.f_tag := "button"; Fake.f_text := Ok (label k); Fake.f_attrs := [];
     Fake.f_find := []; Fake.f_goto := goto |}.

(** A site without end whose pagination shows the current page, the
    next one and a last page numbered 9999; every click advances. *)
Definition endless (_ : bool) (k : Z) : Fake.fpage :=
  [(CSS_SELECTOR, ".js-paginate-btn.active", Ok [button k None]);
   (CSS_SELECTOR, ".js-paginate-btn",
    Ok [button k None; button (k + 1) (Some (k + 1)); button 9999 (Some 9999)])].

(** A site of one listing whose controls 2 and 3 do nothing when
    clicked: the page shown stays page 1. *)
Definition stuck (_ : bool) (_ : Z) : Fake.fpage :=
  [(CSS_SELECTOR, ".js-paginate-btn.active", Ok [button 1 None]);
   (CSS_SELECTOR, ".js-paginate-btn", Ok [button 1 None; button 2 None; button 3 None]);
   (CSS_SELECTOR, ".grid-item", Ok [sale_listing])].

(** A site of two pages, one listing each. *)
Definition two_pages (_ : bool) (k : Z) : Fake.fpage :=
  [(CSS_SELECTOR, ".js-paginate-btn.active", Ok [button k None]);
   (CSS_SELECTOR, ".js-paginate-btn", Ok [button 1 (Some 1); button 2 (Some 2)]);
   (CSS_SELECTOR, ".grid-item", Ok [sale_listing])].

(** A page with a broken listing followed by a sound one. *)
Definition with_broken (_ : bool) (_ : Z) : Fake.fpage :=
  [(CSS_SELECTOR, ".grid-item", Ok [broken_listing; sale_listing])].

(** The frame of the inventory widget. *)
Definition widget_frame : Fake.fnode :=
  {| Fake.f_tag := "iframe"; Fake.f_text := Ok EmptyString;
     Fake.f_attrs := [("src", "https://buildout.com/plugins/5339d012/inventory")];
     Fake.f_find := []; Fake.f_goto := None |}.

(** A site whose listing is inside the widget frame only. *)
Definition widget_site (inside : bool) (_ : Z) : Fake.fpage :=
  if inside then [(CSS_SELECTOR, ".grid-item", Ok [sale_listing])]
  else [(TAG_NAME, "iframe", Ok [widget_frame])].

(** A site without any frame. *)
Definition frameless (_ : bool) (_ : Z) : Fake.fpage := [].

(** A page on which the first listing selector matches nothing, the
    second two nodes and the third one node. *)
Definition second_selector (_ : bool) (_ : Z) : Fake.fpage :=
  [(CSS_SELECTOR, ".property-item", Ok [sale_listing; bare_listing]);
   (CSS_SELECTOR, ".listing-item", Ok [sale_listing])].

(** The run of the class on a site. *)
Definition run_class (site : bool -> Z -> Fake.fpage) (max_pages : option Z)
  : result (Z * list pydict) * st Fake.fworld Fake.fnode :=
  Scraper.scrape_all_pages_counting (Fake.fake site Fake.no_failure) true 30
    "https://www.kingindustrial.com/home-5/properties/" max_pages (init_st Fake.start).

(** The run of [complete_scraper.py] on a site. *)
Definition run_complete (site : bool -> Z -> Fake.fpage)
  : result Z * st Fake.fworld Fake.fnode :=
  Complete.main (Fake.fake site Fake.no_failure) true (init_st Fake.start).

End Sites.

(** ** Footprints

    What a piece of code may do to the state: the kinds of driver
    events it adds to the trace and the cells it writes. *)
Section Footprint.

Context {W E : Type}.

Definition is_click (ev : event E) : bool :=
  match ev with EvScript Click _ _ => true | _ => false end.

(** Reads, waits, scrolls, clock readings and log lines. *)
Definition passive (ev : event E) : bool :=
  match ev with
  | EvUnit (WaitPresent _ _) _ | EvUnit (WaitAbsent _ _) _ => true
  | EvUnit _ _ => false
  | EvScript Click _ _ => false
  | _ => true
  end.

(** Passive events and clicks. *)
Definition browsing (ev : event E) : bool := passive ev || is_click ev.

(** Everything but the start and the end of a browser session. *)
Definition in_session (ev : event E) : bool :=
  match ev with
  | EvUnit Chrome _ | EvUnit Quit _ => false
  | _ => true
  end.

(** Number of clicks in a trace. *)
Fixpoint clicks (tr : list (event E)) : nat :=
  match tr with
  | [] => O
  | ev :: tr' => ((if is_click ev then 1 else 0) + clicks tr')%nat
  end.

(** A browser session is open when the newest session event of the
    trace is a successful [webdriver.Chrome(...)].  A [driver.quit()]
    ends the session whatever it answers. *)
Fixpoint session_open (tr : list (event E)) : bool :=
  match tr with
  | [] => false
  | EvUnit Quit _ :: _ => false
  | EvUnit Chrome (Ok _) :: _ => true
  | _ :: tr' => session_open tr'
  end.

(** [I] is kept by every event accepted by [P] and by every write to
    [property_data]; with [vars] also by the writes to [properties]
    and [scraped_properties] and by the assignment of a started
    browser to [driver]. *)
Definition stable (vars : bool) (P : event E -> bool) (I : st W E -> Prop) : Prop :=
  (forall s w ev, P ev = true -> I s -> I (step w ev s)) /\
  (forall s d, I s -> I (snd (set_property_data d s))) /\
  (vars = true ->
   (forall s l, I s -> I (snd (set_properties l s))) /\
   (forall s l, I s -> I (snd (set_scraped_properties l s))) /\
   (forall s, I s -> I (snd (set_driver true s)))).

(** The link between the trace and the [driver] variable that the
    [finally] blocks rely on: an open session is a session the program
    holds. *)
Definition session_held (s : st W E) : Prop :=
  session_open (trace s) = true -> driver s = true.

(** The state in which the extractor starts: an empty dict. *)
Definition fresh (s : st W E) : st W E := snd (set_property_data ∅ s).

(** [m] adds only events accepted by [P] and writes the variables
    above only when [vars] allows it. *)
Definition emits (vars : bool) (P : event E -> bool) {A} (m : M W E A) : Prop :=
  forall I, stable vars P I -> forall s, I s -> I (snd (m s)).

End Footprint.

(** ** Vocabulary of the statements *)

(** The [find_elements] events of selectors with their answers, oldest
    first. *)
Definition finds {E} (scope : option E) (l : list (string * result (list E)))
  : list (event E) :=
  map (fun p => EvFind scope CSS_SELECTOR (fst p) (snd p)) l.

(** An answer without nodes: an empty list or an exception. *)
Definition no_nodes {E} (r : result (list E)) : Prop :=
  match r with
  | Ok [] | Raise _ => True
  | Ok (_ :: _) => False
  end.

(** A record carries its provenance: the page number and the time of
    scraping. *)
Definition stamped (d : pydict) : Prop :=
  exists (n : Z) (t : string),
    d !! "page_number" = Some (VInt n) /\ d !! "scraped_at" = Some (VStr t).

(** [m] keeps the invariant [I], however it ends. *)
Definition preserves {W E A} (I : st W E -> Prop) (m : M W E A) : Prop :=
  forall s, I s -> I (snd (m s)).



(** *** The outcomes of [navigate_to_next_page] *)
Section Outcomes.

Context {W E : Type} (D : Driver W E).






End Outcomes.

(** *** Frames *)
Section Frames.

Context {E : Type}.

Definition is_switch_to_frame (ev : event E) : bool :=
  match ev with EvUnit (SwitchToFrame _) _ => true | _ => false end.

(** The output file is written. *)
Definition is_write (ev : event E) : bool :=
  match ev with EvUnit (WriteJson _ _) _ => true | _ => false end.

(** The DOM operations of the extraction: every query of elements other
    than the enumeration of the frames, every read of a text or of a
    tag name, every read of an attribute other than the source of a
    frame, and every click. *)
Definition is_extraction (ev : event E) : bool :=
  match ev with
  | EvFind None TAG_NAME sel _ => negb (String.eqb sel "iframe")
  | EvFind _ _ _ _ => true
  | EvStr (Text _) _ | EvStr (TagName _) _ => true
  | EvAttr _ name _ => negb (String.eqb name "src")
  | EvScript Click _ _ => true
  | _ => false
  end.

(** A frame source was read and it designates the inventory widget. *)
Definition src_matches (ev : event E) : bool :=
  match ev with
  | EvAttr _ name (Ok src) => String.eqb name "src" && Complete.is_buildout src
  | _ => false
  end.

(** The driver is inside a frame: the newest switch of the trace is a
    successful [switch_to.frame]. *)
Fixpoint inside_frame (tr : list (event E)) : bool :=
  match tr with
  | [] => false
  | EvUnit (SwitchToFrame _) (Ok _) :: _ => true
  | EvUnit SwitchToDefault _ :: _ => false
  | _ :: tr' => inside_frame tr'
  end.

(** Every DOM operation of the extraction took place inside a frame. *)
Fixpoint framed (tr : list (event E)) : bool :=
  match tr with
  | [] => true
  | ev :: tr' => (if is_extraction ev then inside_frame tr' else true) && framed tr'
  end.

(** Events of the run before the frame is entered. *)
Definition before_frame (ev : event E) : bool :=
  negb (is_switch_to_frame ev || is_extraction ev || is_write ev).

(** Events of the run after the frame was left. *)
Definition after_frame (ev : event E) : bool :=
  negb (is_switch_to_frame ev || is_extraction ev).

(** No frame was entered, nothing was extracted, nothing was written. *)
Definition nothing_done (tr : list (event E)) : Prop :=
  existsb is_switch_to_frame tr = false /\
  existsb is_extraction tr = false /\
  existsb is_write tr = false.

(** Every frame that was entered had a source that designates the
    inventory widget. *)
Definition entered_by_source (tr : list (event E)) : Prop :=
  forall frame ok,
    In (EvUnit (SwitchToFrame frame) ok) tr ->
    exists src, In (EvAttr frame "src" (Ok src)) tr /\ Complete.is_buildout src = true.

End Frames.

(** The three phases of a run of [complete_scraper.py]: before a frame
    is entered, inside the frame, and after it. *)
Definition phase_before {W E} (s : st W E) : Prop := nothing_done (trace s).

Definition phase_inside {W E} (s : st W E) : Prop :=
  framed (trace s) = true /\ inside_frame (trace s) = true /\
  entered_by_source (trace s) /\ existsb src_matches (trace s) = true.

Definition phase_after {W E} (s : st W E) : Prop :=
  framed (trace s) = true /\ entered_by_source (trace s) /\
  existsb src_matches (trace s) = true.

(** * Properties *)

(** ** The monad *)
Section MonadFacts.

Context {W E : Type}.
Implicit Types s : st W E.

Lemma bind_ok {A B} (m : M W E A) (k : A -> M W E B) s a s' :
  m s = (Ok a, s') -> (m ≫= k) s = k a s'.
Proof. intros H. unfold mbind, M_bind, bind. by rewrite H. Qed.

Lemma bind_raise {A B} (m : M W E A) (k : A -> M W E B) s e s' :
  m s = (Raise e, s') -> (m ≫= k) s = (Raise e, s').
Proof. intros H. unfold mbind, M_bind, bind. by rewrite H. Qed.

Lemma try_except_ok {A} (m : M W E A) handles h s a s' :
  m s = (Ok a, s') -> try_except m handles h s = (Ok a, s').
Proof. intros H. unfold try_except. by rewrite H. Qed.

Lemma try_except_caught {A} (m : M W E A) handles h s e s' :
  m s = (Raise e, s') -> handles e = true -> try_except m handles h s = h e s'.
Proof. intros H He. unfold try_except. by rewrite H, He. Qed.

Lemma try_except_passed {A} (m : M W E A) handles h s e s' :
  m s = (Raise e, s') -> handles e = false -> try_except m handles h s = (Raise e, s').
Proof. intros H He. unfold try_except. by rewrite H, He. Qed.

(** A handler that accepts every exception and does not raise makes
    the block total. *)
Lemma try_except_total {A} (m : M W E A) (h : exn -> M W E A) s :
  (forall e s1, exists a s2, h e s1 = (Ok a, s2)) ->
  exists a s', try_except m any_exception h s = (Ok a, s').
Proof.
  intros Hh. unfold try_except.
  destruct (m s) as [[a|e] s1]; [by eauto|].
  simpl. apply Hh.
Qed.

End MonadFacts.

(** ** Footprint rules *)
Section FootprintRules.

Context {W E : Type}.
Implicit Types s : st W E.
Implicit Types P : event E -> bool.

Lemma stable_weaken lists P Q (I : st W E -> Prop) :
  (forall ev, P ev = true -> Q ev = true) -> stable lists Q I -> stable lists P I.
Proof. intros HPQ (Hs & Hd & Hl). split_and!; eauto. Qed.

Lemma stable_lists P (I : st W E -> Prop) : stable true P I -> stable false P I.
Proof. intros (Hs & Hd & Hl). split_and!; eauto; done. Qed.

Lemma emits_weaken lists P Q {A} (m : M W E A) :
  (forall ev, P ev = true -> Q ev = true) -> emits lists P m -> emits lists Q m.
Proof. intros HPQ Hm I HI. apply Hm. by eapply stable_weaken. Qed.

Lemma emits_lists P {A} (m : M W E A) : emits false P m -> emits true P m.
Proof. intros Hm I HI. apply Hm. by apply stable_lists. Qed.

Lemma emits_ret lists P {A} (a : A) : emits lists P (mret a : M W E A).
Proof. by intros I HI s Hs. Qed.

Lemma emits_raise lists P {A} e : emits lists P (raise e : M W E A).
Proof. by intros I HI s Hs. Qed.

Lemma emits_bind lists P {A B} (m : M W E A) (k : A -> M W E B) :
  emits lists P m -> (forall a, emits lists P (k a)) -> emits lists P (m ≫= k).
Proof.
  intros Hm Hk I HI s Hs. unfold mbind, M_bind, bind.
  specialize (Hm I HI s Hs). destruct (m s) as [[a|e] s1]; simpl in *; [|done].
  by apply Hk.
Qed.

Lemma emits_try_except lists P {A} (m : M W E A) handles h :
  emits lists P m -> (forall e, emits lists P (h e)) -> emits lists P (try_except m handles h).
Proof.
  intros Hm Hh I HI s Hs. unfold try_except.
  specialize (Hm I HI s Hs). destruct (m s) as [[a|e] s1]; simpl in *; [done|].
  destruct (handles e); [by apply Hh|done].
Qed.

Lemma emits_try_finally lists P {A} (m : M W E A) f :
  emits lists P m -> emits lists P f -> emits lists P (try_finally m f).
Proof.
  intros Hm Hf I HI s Hs. unfold try_finally.
  specialize (Hm I HI s Hs). destruct (m s) as [r s1]; simpl in *.
  specialize (Hf I HI s1 Hm). by destruct (f s1) as [[[]|e] s2].
Qed.

Lemma emits_for_each lists P {A} (l : list A) (body : A -> M W E unit) :
  (forall x, emits lists P (body x)) -> emits lists P (for_each l body).
Proof.
  intros Hb. induction l as [|x l IH]; simpl.
  - apply emits_ret.
  - apply emits_bind; [apply Hb|done].
Qed.

Lemma emits_first_some lists P {A B} (l : list A) (body : A -> M W E (option B)) :
  (forall x, emits lists P (body x)) -> emits lists P (first_some l body).
Proof.
  intros Hb. induction l as [|x l IH]; simpl.
  - apply emits_ret.
  - apply emits_bind; [apply Hb|]. intros [b|]; [apply emits_ret|done].
Qed.

Lemma emits_fold_m lists P {A B} (body : B -> A -> M W E B) (l : list A) acc :
  (forall b x, emits lists P (body b x)) -> emits lists P (fold_m body acc l).
Proof.
  intros Hb. revert acc. induction l as [|x l IH]; intros acc; simpl.
  - apply emits_ret.
  - apply emits_bind; [apply Hb|done].
Qed.

(** *** Driver calls *)
Section Calls.

Context (D : Driver W E).

Lemma emits_call_unit lists P c :
  (forall r, P (EvUnit c r) = true) -> emits lists P (call_unit D c).
Proof.
  intros HP I (Hs & _) s Hi. unfold call_unit.
  destruct (do_unit D c (world s)) as [r w]. simpl. by apply Hs.
Qed.

Lemma emits_call_str lists P c :
  (forall r, P (EvStr c r) = true) -> emits lists P (call_str D c).
Proof.
  intros HP I (Hs & _) s Hi. unfold call_str.
  destruct (do_str D c (world s)) as [r w]. simpl. by apply Hs.
Qed.

Lemma emits_find_elements lists P scope b sel :
  (forall r, P (EvFind scope b sel r) = true) -> emits lists P (find_elements D scope b sel).
Proof.
  intros HP I (Hs & _) s Hi. unfold find_elements.
  destruct (do_find D scope b sel (world s)) as [r w]. simpl. by apply Hs.
Qed.

Lemma emits_get_attribute lists P e name :
  (forall r, P (EvAttr e name r) = true) -> emits lists P (get_attribute D e name).
Proof.
  intros HP I (Hs & _) s Hi. unfold get_attribute.
  destruct (do_attr D e name (world s)) as [r w]. simpl. by apply Hs.
Qed.

Lemma emits_execute_script lists P sc args :
  (forall r, P (EvScript sc args r) = true) -> emits lists P (execute_script D sc args).
Proof.
  intros HP I (Hs & _) s Hi. unfold execute_script.
  destruct (do_script D sc args (world s)) as [r w]. simpl. by apply Hs.
Qed.

Lemma emits_now lists P : (forall t, P (EvNow t) = true) -> emits lists P (now D).
Proof.
  intros HP I (Hs & _) s Hi. unfold now.
  destruct (do_now D (world s)) as [r w]. simpl. by apply Hs.
Qed.

Lemma emits_sleep lists P ms : P (EvSleep ms) = true -> emits lists P (sleep D ms).
Proof. intros HP I (Hs & _) s Hi. unfold sleep. simpl. by apply Hs. Qed.

Lemma emits_text lists P e :
  (forall r, P (EvStr (Text e) r) = true) -> emits lists P (text D e).
Proof. apply emits_call_str. Qed.

Lemma emits_tag_name lists P e :
  (forall r, P (EvStr (TagName e) r) = true) -> emits lists P (tag_name D e).
Proof. apply emits_call_str. Qed.

Lemma emits_find_element lists P scope b sel :
  (forall r, P (EvFind scope b sel r) = true) -> emits lists P (find_element D scope b sel).
Proof.
  intros HP. unfold find_element. apply emits_bind; [by apply emits_find_elements|].
  intros [|e l]; [apply emits_raise|apply emits_ret].
Qed.

End Calls.

Lemma emits_log lists P lvl msg args :
  P (EvLog lvl msg args) = true -> emits lists P (log lvl msg args : M W E unit).
Proof. intros HP I (Hs & _) s Hi. unfold log. simpl. by apply Hs. Qed.

Lemma emits_set_property_data lists P d : emits lists P (set_property_data d : M W E unit).
Proof. intros I (_ & Hd & _) s Hi. by apply Hd. Qed.

Lemma emits_get_property_data lists P : emits lists P (get_property_data : M W E pydict).
Proof. by intros I HI s Hi. Qed.

Lemma emits_assign lists P k v : emits lists P (assign k v : M W E unit).
Proof. intros I (_ & Hd & _) s Hi. unfold assign. by apply Hd. Qed.

Lemma emits_get_driver lists P : emits lists P (get_driver : M W E bool).
Proof. by intros I HI s Hi. Qed.

Lemma emits_get_properties lists P : emits lists P (get_properties : M W E (list pydict)).
Proof. by intros I HI s Hi. Qed.

Lemma emits_set_properties P l : emits true P (set_properties l : M W E unit).
Proof. intros I (_ & _ & Hl) s Hi. by apply Hl. Qed.

Lemma emits_set_driver P : emits true P (set_driver true : M W E unit).
Proof. intros I (_ & _ & Hl) s Hi. by apply Hl. Qed.

Lemma emits_append_property P d : emits true P (append_property d : M W E unit).
Proof. intros I (_ & _ & Hl) s Hi. unfold append_property. by apply Hl. Qed.

Lemma emits_set_scraped_properties P l : emits true P (set_scraped_properties l : M W E unit).
Proof. intros I (_ & _ & Hl) s Hi. by apply Hl. Qed.

End FootprintRules.

(** *** Inclusions between the event classes *)

Lemma passive_browsing {E} (ev : event E) : passive ev = true -> browsing ev = true.
Proof. intros H. unfold browsing. by rewrite H. Qed.

Lemma browsing_in_session {E} (ev : event E) : browsing ev = true -> in_session ev = true.
Proof. by destruct ev as [[] ?| | | |[] ? ?| | |]. Qed.

Lemma passive_in_session {E} (ev : event E) : passive ev = true -> in_session ev = true.
Proof. intros H. by apply browsing_in_session, passive_browsing. Qed.


Create HintDb emits.

#[global] Hint Resolve passive_browsing browsing_in_session passive_in_session : emits.
#[global] Hint Resolve emits_set_property_data emits_get_property_data emits_assign
  emits_get_driver emits_get_properties emits_set_properties emits_set_driver
  emits_append_property
  emits_set_scraped_properties : emits.

(** Side conditions of the call rules: the class accepts the event. *)
Ltac emits_side := intros; first [reflexivity | eauto with emits].

(** One step of a footprint proof: a known function, a driver call, or
    the structure of the code. *)
Ltac emits_step :=
  first
    [ solve [eauto with emits]
    | apply emits_ret
    | apply emits_raise
    | apply emits_find_elements; emits_side
    | apply emits_find_element; emits_side
    | apply emits_get_attribute; emits_side
    | apply emits_text; emits_side
    | apply emits_tag_name; emits_side
    | apply emits_call_str; emits_side
    | apply emits_call_unit; emits_side
    | apply emits_execute_script; emits_side
    | apply emits_now; emits_side
    | apply emits_sleep; emits_side
    | apply emits_log; emits_side
    | apply emits_for_each; intros ?
    | apply emits_first_some; intros ?
    | apply emits_fold_m; intros ? ?
    | apply emits_try_except; [|intros ?]
    | apply emits_try_finally
    | apply emits_bind; [|intros ?]
    | match goal with
      | |- emits _ _ (if ?b then _ else _) => destruct b
      | |- emits _ _ (match ?x with _ => _ end) => destruct x
      end ].

Ltac emits_auto := repeat emits_step.

(** ** Footprints of scraper.py *)

Lemma emits_wait_for_loading_to_complete {W E} (D : Driver W E) lists P :
  (forall ev, passive ev = true -> P ev = true) ->
  emits lists P (Scraper.wait_for_loading_to_complete D).
Proof.
  intros HP. apply (emits_weaken _ passive); [done|].
  unfold Scraper.wait_for_loading_to_complete. emits_auto.
Qed.
#[global] Hint Resolve emits_wait_for_loading_to_complete : emits.

Lemma emits_scroll_to_end {W E} (D : Driver W E) lists fuel h :
  emits lists passive (Scraper.scroll_to_end D fuel h).
Proof. revert h. induction fuel as [|n IH]; intros h; simpl; emits_auto. Qed.
#[global] Hint Resolve emits_scroll_to_end : emits.

Lemma emits_floordiv {W E} lists (P : event E -> bool) h d :
  emits lists P (Scraper.floordiv h d : M W E Z).
Proof. unfold Scraper.floordiv. emits_auto. Qed.
#[global] Hint Resolve emits_floordiv : emits.

Lemma emits_scroll_page {W E} (D : Driver W E) lists P :
  (forall ev, passive ev = true -> P ev = true) -> emits lists P (Scraper.scroll_page D).
Proof.
  intros HP. apply (emits_weaken _ passive); [done|].
  unfold Scraper.scroll_page. emits_auto.
Qed.
#[global] Hint Resolve emits_scroll_page : emits.

Lemma emits_wait_for_page_load {W E} (D : Driver W E) lists P :
  (forall ev, passive ev = true -> P ev = true) -> emits lists P (Scraper.wait_for_page_load D).
Proof.
  intros HP. apply (emits_weaken _ passive); [done|].
  unfold Scraper.wait_for_page_load. emits_auto.
Qed.
#[global] Hint Resolve emits_wait_for_page_load : emits.

Lemma emits_debug_page_structure {W E} (D : Driver W E) lists P :
  (forall ev, passive ev = true -> P ev = true) -> emits lists P (Scraper.debug_page_structure D).
Proof.
  intros HP. apply (emits_weaken _ passive); [done|].
  unfold Scraper.debug_page_structure. emits_auto.
Qed.
#[global] Hint Resolve emits_debug_page_structure : emits.

Lemma emits_property_id_of {W E} lists (P : event E -> bool) url :
  emits lists P (Scraper.property_id_of url : M W E pyval).
Proof. unfold Scraper.property_id_of. emits_auto. Qed.
#[global] Hint Resolve emits_property_id_of : emits.

Lemma emits_extract_fields {W E} (D : Driver W E) lists P node :
  (forall ev, passive ev = true -> P ev = true) -> emits lists P (Scraper.extract_fields D node).
Proof.
  intros HP. apply (emits_weaken _ passive); [done|].
  unfold Scraper.extract_fields, Scraper.extract_url, Scraper.extract_image,
    Scraper.extract_listing_type, Scraper.extract_title, Scraper.extract_location,
    Scraper.extract_details, Scraper.table_pass, Scraper.table_row, Scraper.collect_info.
  emits_auto.
Qed.
#[global] Hint Resolve emits_extract_fields : emits.

Lemma emits_extract_property_details {W E} (D : Driver W E) lists P node :
  (forall ev, passive ev = true -> P ev = true) ->
  emits lists P (Scraper.extract_property_details D node).
Proof. intros HP. unfold Scraper.extract_property_details. emits_auto. Qed.
#[global] Hint Resolve emits_extract_property_details : emits.

Lemma emits_int {W E} lists (P : event E -> bool) t : emits lists P (Scraper.int t : M W E Z).
Proof. unfold Scraper.int. emits_auto. Qed.
#[global] Hint Resolve emits_int : emits.

Lemma emits_get_current_page_number {W E} (D : Driver W E) lists P :
  (forall ev, passive ev = true -> P ev = true) ->
  emits lists P (Scraper.get_current_page_number D).
Proof.
  intros HP. apply (emits_weaken _ passive); [done|].
  unfold Scraper.get_current_page_number. emits_auto.
Qed.
#[global] Hint Resolve emits_get_current_page_number : emits.

Lemma emits_resolve {W E} (D : Driver W E) lists P scope selectors :
  (forall ev, passive ev = true -> P ev = true) ->
  emits lists P (Scraper.resolve D scope selectors).
Proof.
  intros HP. apply (emits_weaken _ passive); [done|].
  induction selectors as [|sel rest IH]; simpl; emits_auto.
Qed.
#[global] Hint Resolve emits_resolve : emits.

Lemma emits_process_element {W E} (D : Driver W E) P node :
  (forall ev, passive ev = true -> P ev = true) ->
  emits true P (Scraper.process_element D node).
Proof.
  intros HP. apply (emits_weaken _ passive); [done|].
  unfold Scraper.process_element. emits_auto.
Qed.
#[global] Hint Resolve emits_process_element : emits.

Lemma emits_get_current_page_properties {W E} (D : Driver W E) P :
  (forall ev, passive ev = true -> P ev = true) ->
  emits true P (Scraper.get_current_page_properties D).
Proof.
  intros HP. apply (emits_weaken _ passive); [done|].
  unfold Scraper.get_current_page_properties. emits_auto.
Qed.
#[global] Hint Resolve emits_get_current_page_properties : emits.

Lemma emits_get_total_results_info {W E} (D : Driver W E) lists P :
  (forall ev, passive ev = true -> P ev = true) ->
  emits lists P (Scraper.get_total_results_info D).
Proof.
  intros HP. apply (emits_weaken _ passive); [done|].
  unfold Scraper.get_total_results_info, Scraper.page_number_of. emits_auto.
Qed.
#[global] Hint Resolve emits_get_total_results_info : emits.

Lemma emits_find_next_page_button {W E} (D : Driver W E) lists P cur buttons :
  (forall ev, passive ev = true -> P ev = true) ->
  emits lists P (Scraper.find_next_page_button D cur buttons).
Proof.
  intros HP. apply (emits_weaken _ passive); [done|].
  induction buttons as [|b rest IH]; simpl; emits_auto.
Qed.
#[global] Hint Resolve emits_find_next_page_button : emits.

Lemma emits_navigate_to_next_page {W E} (D : Driver W E) lists P :
  (forall ev, browsing ev = true -> P ev = true) ->
  emits lists P (Scraper.navigate_to_next_page D).
Proof.
  intros HP. apply (emits_weaken _ browsing); [done|].
  unfold Scraper.navigate_to_next_page, Scraper.try_navigate. emits_auto.
Qed.
#[global] Hint Resolve emits_navigate_to_next_page : emits.

Lemma emits_scrape_loop {W E} (D : Driver W E) P fuel page_count all :
  (forall ev, browsing ev = true -> P ev = true) ->
  emits true P (Scraper.scrape_loop D fuel page_count all).
Proof.
  intros HP. apply (emits_weaken _ browsing); [done|].
  revert page_count all. induction fuel as [|n IH]; intros page_count all; simpl; emits_auto.
Qed.
#[global] Hint Resolve emits_scrape_loop : emits.

(** ** Footprints of complete_scraper.py and simple_scraper.py *)

Lemma emits_find_title {W E} (D : Driver W E) lists node selectors name :
  emits lists passive (Complete.find_title D node selectors name).
Proof. revert name. induction selectors as [|sel rest IH]; intros name; simpl; emits_auto. Qed.
#[global] Hint Resolve emits_find_title : emits.

Lemma emits_extract_property_data {W E} (D : Driver W E) lists P node :
  (forall ev, passive ev = true -> P ev = true) ->
  emits lists P (Complete.extract_property_data D node).
Proof.
  intros HP. apply (emits_weaken _ passive); [done|].
  unfold Complete.extract_property_data, Complete.extract_item_url, Complete.extract_flags,
    Complete.extract_pdf_url.
  emits_auto.
Qed.
#[global] Hint Resolve emits_extract_property_data : emits.

Lemma emits_get_next_page_button {W E} (D : Driver W E) lists P cur :
  (forall ev, passive ev = true -> P ev = true) ->
  emits lists P (Complete.get_next_page_button D cur).
Proof.
  intros HP. apply (emits_weaken _ passive); [done|].
  unfold Complete.get_next_page_button, Complete.find_pagination_buttons. emits_auto.
Qed.
#[global] Hint Resolve emits_get_next_page_button : emits.

Lemma emits_find_buildout_iframe {W E} (D : Driver W E) lists P iframes :
  (forall ev, passive ev = true -> P ev = true) ->
  emits lists P (Complete.find_buildout_iframe D iframes).
Proof.
  intros HP. apply (emits_weaken _ passive); [done|].
  unfold Complete.find_buildout_iframe. emits_auto.
Qed.
#[global] Hint Resolve emits_find_buildout_iframe : emits.

Lemma emits_scrape_page {W E} (D : Driver W E) lists P :
  (forall ev, passive ev = true -> P ev = true) -> emits lists P (Complete.scrape_page D).
Proof.
  intros HP. apply (emits_weaken _ passive); [done|].
  unfold Complete.scrape_page, Complete.extract_item. emits_auto.
Qed.
#[global] Hint Resolve emits_scrape_page : emits.

Lemma emits_complete_scrape_loop {W E} (D : Driver W E) lists P fuel visited cur all :
  (forall ev, browsing ev = true -> P ev = true) ->
  emits lists P (Complete.scrape_loop D fuel visited cur all).
Proof.
  intros HP. apply (emits_weaken _ browsing); [done|].
  revert visited cur all.
  induction fuel as [|n IH]; intros visited cur all; simpl; emits_auto.
Qed.
#[global] Hint Resolve emits_complete_scrape_loop : emits.

Lemma emits_look_for_iframe {W E} (D : Driver W E) lists :
  emits lists in_session (Simple.look_for_iframe D).
Proof.
  unfold Simple.look_for_iframe, Simple.look_for_items, Simple.show_item,
    Simple.find_buildout_iframe, Simple.need_str.
  emits_auto.
Qed.
#[global] Hint Resolve emits_look_for_iframe : emits.

(** ** What a footprint gives *)
Section FootprintUse.

Context {W E : Type}.
Implicit Types s : st W E.


(** Code without access to the result lists leaves them alone. *)
Lemma emits_properties {A} (P : event E -> bool) (m : M W E A) s :
  emits false P m ->
  properties (snd (m s)) = properties s /\
  scraped_properties (snd (m s)) = scraped_properties s.
Proof.
  intros Hm.
  apply (Hm (fun s' => properties s' = properties s
                       /\ scraped_properties s' = scraped_properties s)); [|done].
  split_and!; try done.
Qed.

Lemma emits_driver {A} (P : event E -> bool) (m : M W E A) s :
  emits false P m -> driver (snd (m s)) = driver s.
Proof.
  intros Hm. apply (Hm (fun s' => driver s' = driver s)); [|done].
  split_and!; done.
Qed.



Lemma session_open_in_session (ev : event E) tr :
  in_session ev = true -> session_open (ev :: tr) = session_open tr.
Proof. by destruct ev as [[] ?| | | | | | |]. Qed.

Lemma session_held_stable : stable true in_session (@session_held W E).
Proof.
  split_and!.
  - intros s w ev Hev Hs. unfold session_held, step in *. cbn [trace driver].
    by rewrite (session_open_in_session _ _ Hev).
  - by intros s d Hs.
  - intros _. by split_and!.
Qed.

Lemma emits_session_held {A} lists (m : M W E A) s :
  emits lists in_session m -> session_held s -> session_held (snd (m s)).
Proof.
  intros Hm Hs. destruct lists.
  - by apply (Hm session_held session_held_stable).
  - by apply (emits_lists _ _ Hm session_held session_held_stable).
Qed.

End FootprintUse.

(** ** Selector resolution (scraper.py, lines 490-507) *)

(** C6: for every ordered list of selectors and every scope, the
    selectors are tried strictly in order.  The answers of the selectors
    tried before the winner had no node ([misses]); the winner is the
    first selector that yields at least one node, its nodes and its
    identity are returned, and the trace shows no call for any later
    selector.  When every selector yields no node the result is the
    empty sequence with no selector, returned normally and not raised. *)
Theorem resolve_first_match {W E} (D : Driver W E) (scope : option E)
    (selectors : list string) (s : st W E) :
  exists (misses : list (string * result (list E))) (s' : st W E),
    Forall (fun p => no_nodes (snd p)) misses /\
    ((exists selector elements later,
        selectors = (map fst misses ++ selector :: later)%list /\
        elements <> [] /\
        Scraper.resolve D scope selectors s = (Ok (elements, Some selector), s') /\
        trace s' = (EvFind scope CSS_SELECTOR selector (Ok elements)
                      :: rev (finds scope misses) ++ trace s)%list)
     \/
     (selectors = map fst misses /\
      Scraper.resolve D scope selectors s = (Ok ([], None), s') /\
      trace s' = (rev (finds scope misses) ++ trace s)%list)).
Proof.
  revert s. induction selectors as [|sel rest IH]; intros s.
  - exists [], s. split; [constructor|]. right. by split_and!.
  - simpl. unfold mbind, M_bind, bind, try_except, find_elements.
    destruct (do_find D scope CSS_SELECTOR sel (world s)) as [r w] eqn:Hfind.
    set (s1 := step w (EvFind scope CSS_SELECTOR sel r) s).
    assert (Hmiss : no_nodes r ->
      exists misses s',
        Forall (fun p => no_nodes (snd p)) misses /\
        ((exists selector elements later,
            sel :: rest = (map fst misses ++ selector :: later)%list /\
            elements <> [] /\
            Scraper.resolve D scope rest s1 = (Ok (elements, Some selector), s') /\
            trace s' = (EvFind scope CSS_SELECTOR selector (Ok elements)
                          :: rev (finds scope misses) ++ trace s)%list)
         \/
         (sel :: rest = map fst misses /\
          Scraper.resolve D scope rest s1 = (Ok ([], None), s') /\
          trace s' = (rev (finds scope misses) ++ trace s)%list))).
    { intros Hr. destruct (IH s1) as (misses & s' & Hall & Hcase).
      exists ((sel, r) :: misses), s'. split; [by constructor|].
      destruct Hcase as [(selector & elements & later & -> & Hne & Hres & Htr)
                        |(-> & Hres & Htr)].
      - left. exists selector, elements, later. split_and!; try done.
        rewrite Htr. simpl. by rewrite <- app_assoc.
      - right. split_and!; try done.
        rewrite Htr. simpl. by rewrite <- app_assoc. }
    destruct r as [[|e es]|e]; simpl.
    + by apply Hmiss.
    + exists [], s1. split; [constructor|]. left.
      exists sel, (e :: es), rest. by split_and!.
    + by apply Hmiss.
Qed.

(** ** Release of the browser session *)
Section Release.

Context {W E : Type} (D : Driver W E).
Implicit Types s : st W E.

Lemma session_held_init (w : W) : session_held (init_st (E:=E) w).
Proof. by intros ?. Qed.

(** [if driver: driver.quit()] leaves no session open. *)
Lemma close_driver_releases s :
  session_held s -> session_open (trace (snd (Scraper.close_driver D s))) = false.
Proof.
  intros Hs. unfold Scraper.close_driver, mbind, M_bind, bind, get_driver, call_unit. simpl.
  destruct (driver s) eqn:Hd.
  - by destruct (do_unit D Quit (world s)) as [r w].
  - simpl. destruct (session_open (trace s)) eqn:Ho; [|done].
    specialize (Hs Ho). congruence.
Qed.

(** A [finally: close_driver()] releases the session on every exit of
    the block, normal or not. *)
Lemma finally_releases {A} (m : M W E A) s :
  session_held (snd (m s)) ->
  session_open (trace (snd (try_finally m (Scraper.close_driver D) s))) = false.
Proof.
  intros Hm. unfold try_finally. destruct (m s) as [r s1]. simpl in Hm.
  pose proof (close_driver_releases s1 Hm) as Hc.
  by destruct (Scraper.close_driver D s1) as [[[]|e] s2].
Qed.

(** Starting the browser keeps the link: the assignment to [driver]
    follows the successful start at once. *)
Lemma session_held_start {A} (wm : bool) (k : M W E A) s :
  emits true in_session k ->
  session_held s ->
  session_held
    (snd (((if wm then call_unit D Install else mret tt);;
           call_unit D Chrome;; set_driver true;; k) s)).
Proof.
  intros Hk Hs.
  assert (Hi : session_held (snd ((if wm then call_unit D Install else mret tt) s))).
  { apply (emits_session_held true); [|done]. destruct wm; emits_auto. }
  unfold mbind, M_bind, bind.
  destruct ((if wm then call_unit D Install else mret tt) s) as [[[]|e] s1]; [|done].
  simpl in Hi. unfold call_unit.
  destruct (do_unit D Chrome (world s1)) as [[[]|e] w1]; simpl.
  - apply (emits_session_held true); [done|]. by intros _.
  - done.
Qed.

Lemma try_except_session_held {A} (m : M W E A) handles h s :
  session_held (snd (m s)) ->
  (forall e, emits true in_session (h e)) ->
  session_held (snd (try_except m handles h s)).
Proof.
  intros Hm Hh. unfold try_except. destruct (m s) as [[a|e] s1]; [done|].
  destruct (handles e); [|done]. by apply (emits_session_held true).
Qed.

End Release.

(** C9: on every exit path of a run, whatever the driver answers and
    wherever it raises, no browser session is open when the run returns
    to its caller: the [finally] block has quit every session that was
    started.  This holds for the run of the class
    ([scrape_all_pages]) and for the [main] of [complete_scraper.py]
    and of [simple_scraper.py]. *)
Theorem session_always_released {W E} (D : Driver W E) (wm : bool) (timeout : Z)
    (url : string) (max_pages : option Z) (w : W) :
  session_open (trace (snd (Scraper.scrape_all_pages D wm timeout url max_pages (init_st w))))
    = false /\
  session_open (trace (snd (Complete.main D wm (init_st w)))) = false /\
  session_open (trace (snd (Simple.main D wm (init_st w)))) = false.
Proof.
  split_and!.
  - unfold Scraper.scrape_all_pages.
    assert (H : session_open (trace (snd
                  (Scraper.scrape_all_pages_counting D wm timeout url max_pages (init_st w))))
                = false).
    { unfold Scraper.scrape_all_pages_counting. apply finally_releases.
      apply try_except_session_held; [|intros e; emits_auto].
      unfold Scraper.scrape_pages, Scraper.setup_driver.
      unfold mbind at 1, M_bind at 1, bind at 1.
      match goal with
      | |- context [try_except ?m ?f ?h (init_st w)] =>
          assert (Hs : session_held (snd (try_except m f h (init_st w))))
      end.
      { apply try_except_session_held; [|intros e; emits_auto].
        apply session_held_start; [emits_auto|apply session_held_init]. }
      match goal with
      | |- context [try_except ?m ?f ?h (init_st w)] =>
          destruct (try_except m f h (init_st w)) as [[[]|e] s1]; [|done]
      end.
      simpl in Hs. apply (emits_session_held true); [|done].
      emits_auto. }
    unfold mbind, M_bind, bind.
    by destruct (Scraper.scrape_all_pages_counting D wm timeout url max_pages (init_st w))
      as [[a|e] s1].
  - unfold Complete.main. apply (finally_releases D).
    apply try_except_session_held; [|intros e; emits_auto].
    unfold Complete.run. apply session_held_start; [|apply session_held_init].
    emits_auto.
  - unfold Simple.main. apply (finally_releases D).
    apply try_except_session_held; [|intros e; emits_auto].
    unfold Simple.run. apply session_held_start; [|apply session_held_init].
    emits_auto.
Qed.

(** ** Invariants *)
Section Preservation.

Context {W E : Type}.
Implicit Types s : st W E.
Implicit Types I : st W E -> Prop.

Lemma preserves_bind {A B} I (m : M W E A) (k : A -> M W E B) :
  preserves I m -> (forall a, preserves I (k a)) -> preserves I (m ≫= k).
Proof.
  intros Hm Hk s Hs. unfold mbind, M_bind, bind.
  specialize (Hm s Hs). destruct (m s) as [[a|e] s1]; [by apply Hk|done].
Qed.

Lemma preserves_ret {A} I (a : A) : preserves I (mret a : M W E A).
Proof. by intros s Hs. Qed.

Lemma preserves_try_except {A} I (m : M W E A) handles h :
  preserves I m -> (forall e, preserves I (h e)) -> preserves I (try_except m handles h).
Proof.
  intros Hm Hh s Hs. unfold try_except.
  specialize (Hm s Hs). destruct (m s) as [[a|e] s1]; [done|].
  destruct (handles e); [by apply Hh|done].
Qed.

Lemma preserves_for_each {A} I (l : list A) (body : A -> M W E unit) :
  (forall x, preserves I (body x)) -> preserves I (for_each l body).
Proof.
  intros Hb. induction l as [|x l IH]; simpl; [apply preserves_ret|].
  apply preserves_bind; [apply Hb|done].
Qed.

Lemma emits_preserves {A} lists P I (m : M W E A) :
  emits lists P m -> stable lists P I -> preserves I m.
Proof. intros Hm HI s Hs. by apply Hm. Qed.

(** Any predicate on the page's result list is kept by code that has
    no access to the list. *)
Lemma stable_properties (Q : list pydict -> Prop) P :
  stable false P (fun s : st W E => Q (properties s)).
Proof. by split_and!. Qed.

End Preservation.

(** ** The extractor boundary and the per-page loop (scraper.py) *)
Section Extraction.

Context {W E : Type} (D : Driver W E).
Implicit Types s : st W E.

(** [extract_property_details] never raises.  When the field
    extraction raises, the record returned is the dict as it stood at
    the failure with the key ["error"] added. *)
Lemma extract_boundary (node : E) s :
  exists pd s',
    Scraper.extract_property_details D node s = (Ok pd, s') /\
    properties s' = properties s /\
    match Scraper.extract_fields D node (fresh s) with
    | (Ok _, s1) => pd = property_data s1
    | (Raise e, s1) => pd = <["error" := VStr (str_exn e)]> (property_data s1)
    end.
Proof.
  pose proof (emits_properties passive (Scraper.extract_property_details D node) s) as [Hp _].
  { emits_auto. }
  revert Hp. unfold Scraper.extract_property_details, fresh.
  unfold mbind, M_bind, bind, try_except. simpl.
  destruct (Scraper.extract_fields D node _) as [[[]|e] s1]; simpl; intros Hp; eauto.
Qed.

(** The page number read is the label of the active button, or 1 when
    there is no active button or its label is not an integer. *)
Lemma page_number_read s :
  Scraper.get_current_page_number D s =
  let '(r, w1) := do_find D None CSS_SELECTOR ".js-paginate-btn.active" (world s) in
  let s1 := step w1 (EvFind None CSS_SELECTOR ".js-paginate-btn.active" r) s in
  match r with
  | Ok (active :: _) =>
      let '(t, w2) := do_str D (Text active) w1 in
      let s2 := step w2 (EvStr (Text active) t) s1 in
      match t with
      | Ok label => (Ok (default 1 (PyStr.parse_int label)), s2)
      | Raise e => if is_NoSuchElement e || is_ValueError e then (Ok 1, s2) else (Raise e, s2)
      end
  | Ok [] => (Ok 1, s1)
  | Raise e => if is_NoSuchElement e || is_ValueError e then (Ok 1, s1) else (Raise e, s1)
  end.
Proof.
  unfold Scraper.get_current_page_number, find_element, text, call_str, find_elements.
  unfold mbind, M_bind, bind, try_except. simpl.
  destruct (do_find D None CSS_SELECTOR _ (world s)) as [[[|active l]|e] w1]; simpl; try done.
  destruct (do_str D (Text active) w1) as [[label|e] w2]; simpl; try done.
  unfold Scraper.int. by destruct (PyStr.parse_int label).
Qed.

(** The scroll to the node cannot fail the iteration. *)
Lemma scroll_into_view_total (node : E) s :
  exists s0,
    try_except (execute_script D ScrollIntoView [node];; sleep D 500) any_exception
      (fun _ => mret tt) s = (Ok tt, s0) /\
    properties s0 = properties s.
Proof.
  match goal with
  | |- context [try_except ?m ?f ?h s] =>
      pose proof (emits_properties passive (try_except m f h) s) as [Hp _];
        [emits_auto|];
      destruct (try_except_total m h s) as ([] & s0 & Heq); [by eauto|]
  end.
  exists s0. rewrite Heq in *. by split.
Qed.

(** One iteration of the loop over the listing nodes: either a record
    with both stamps is appended, or a read of the page number raised
    and the list is unchanged.  The record is the one the extractor
    returned, the page number is the one read after the extraction, and
    the clock is read as the last thing before the append. *)
Lemma process_element_appends (node : E) s :
  match Scraper.process_element D node s with
  | (Ok _, s') =>
      exists pd n t s0 s1 s2,
        Scraper.extract_property_details D node s0 = (Ok pd, s1) /\
        Scraper.get_current_page_number D s1 = (Ok n, s2) /\
        trace s' = EvNow t :: trace s2 /\
        properties s' =
          (properties s ++
             [<["scraped_at" := VStr (iso t)]> (<["page_number" := VInt n]> pd)])%list
  | (Raise _, s') => properties s' = properties s
  end.
Proof.
  unfold Scraper.process_element.
  destruct (scroll_into_view_total node s) as (s0 & Hscroll & Hp0).
  rewrite (bind_ok _ _ _ _ _ Hscroll).
  destruct (extract_boundary node s0) as (pd & s1 & Hext & Hp1 & _).
  rewrite (bind_ok _ _ _ _ _ Hext).
  pose proof (emits_properties passive (Scraper.get_current_page_number D) s1) as [Hp2 _].
  { emits_auto. }
  destruct (Scraper.get_current_page_number D s1) as [[n|e] s2] eqn:Hnum; simpl in Hp2.
  - rewrite (bind_ok _ _ _ _ _ Hnum).
    unfold mbind, M_bind, bind, now, append_property, set_properties.
    destruct (do_now D (world s2)) as [t w3] eqn:Hnow. simpl.
    exists pd, n, t, s0, s1, s2. split_and!; try done.
    congruence.
  - rewrite (bind_raise _ _ _ _ _ Hnum). congruence.
Qed.

Lemma process_element_stamped (node : E) :
  preserves (fun s => Forall stamped (properties s)) (Scraper.process_element D node).
Proof.
  intros s Hs. pose proof (process_element_appends node s) as H.
  destruct (Scraper.process_element D node s) as [[[]|e] s']; simpl.
  - destruct H as (pd & n & t & s0 & s1 & s2 & _ & _ & _ & ->).
    apply Forall_app. split; [done|]. constructor; [|constructor].
    exists n, (iso t). split.
    + rewrite lookup_insert_ne; [|done]. by rewrite lookup_insert_eq.
    + by rewrite lookup_insert_eq.
  - by rewrite H.
Qed.

End Extraction.

Section Page.

Context {W E : Type} (D : Driver W E).
Implicit Types s : st W E.

Lemma passive_preserves_properties {A} (Q : list pydict -> Prop) (m : M W E A) :
  emits false passive m -> preserves (fun s => Q (properties s)) m.
Proof. intros Hm. eapply emits_preserves; [done|apply stable_properties]. Qed.

(** The page extraction never raises and returns the list built so
    far; every predicate kept by the iterations holds of the result. *)
Lemma page_properties_invariant (Q : list pydict -> Prop) s :
  Q [] ->
  (forall node, preserves (fun s => Q (properties s)) (Scraper.process_element D node)) ->
  exists recs s',
    Scraper.get_current_page_properties D s = (Ok recs, s') /\ Q recs.
Proof.
  intros Hnil Hbody. unfold Scraper.get_current_page_properties.
  unfold mbind at 1, M_bind at 1, bind at 1. simpl.
  match goal with
  | |- context [(try_except ?m ?f ?h ≫= ?k) ?s0] =>
      assert (Hpres : preserves (fun s => Q (properties s)) (try_except m f h));
      [|destruct (try_except_total m h s0) as ([] & s1 & Heq); [by eauto|];
        specialize (Hpres s0 Hnil); rewrite (bind_ok _ _ _ _ _ Heq)]
  end.
  { apply preserves_try_except; [|intros e; apply preserves_ret].
    apply preserves_bind; [apply passive_preserves_properties; emits_auto|intros _].
    apply preserves_bind; [apply passive_preserves_properties; emits_auto|intros _].
    apply preserves_bind; [apply passive_preserves_properties; emits_auto|].
    intros [els used]. destruct (nonempty els).
    - by apply preserves_for_each.
    - apply passive_preserves_properties. emits_auto. }
  rewrite Heq in Hpres. simpl in Hpres.
  exists (properties s1), s1. by split.
Qed.

End Page.

(** C10: every record appended by the per-page extraction step carries
    a page number and a time of scraping.  An iteration that completes
    appends the record the extractor returned (with or without the
    error field) after adding ["page_number"], the number read from the
    active-page indicator after the extraction, and ["scraped_at"], the
    ISO rendering of a clock reading that is the last event before the
    append; an iteration that raises appends nothing.  The page number
    read is 1 when the indicator is missing or its label is not an
    integer.  Hence the page extraction, which never raises, returns
    only stamped records. *)
Theorem appended_records_are_stamped {W E} (D : Driver W E) (node : E) (s : st W E) :
  match Scraper.process_element D node s with
  | (Ok _, s') =>
      exists pd n t s0 s1 s2,
        Scraper.extract_property_details D node s0 = (Ok pd, s1) /\
        Scraper.get_current_page_number D s1 = (Ok n, s2) /\
        trace s' = EvNow t :: trace s2 /\
        properties s' =
          (properties s ++
             [<["scraped_at" := VStr (iso t)]> (<["page_number" := VInt n]> pd)])%list
  | (Raise _, s') => properties s' = properties s
  end /\
  fst (Scraper.get_current_page_number D s) =
    (let '(r, w1) := do_find D None CSS_SELECTOR ".js-paginate-btn.active" (world s) in
     match r with
     | Ok (active :: _) =>
         match fst (do_str D (Text active) w1) with
         | Ok label => Ok (default 1 (PyStr.parse_int label))
         | Raise e => if is_NoSuchElement e || is_ValueError e then Ok 1 else Raise e
         end
     | Ok [] => Ok 1
     | Raise e => if is_NoSuchElement e || is_ValueError e then Ok 1 else Raise e
     end) /\
  exists recs s',
    Scraper.get_current_page_properties D s = (Ok recs, s') /\ Forall stamped recs.
Proof.
  split_and!.
  - apply process_element_appends.
  - rewrite page_number_read.
    destruct (do_find D None CSS_SELECTOR _ (world s)) as [[[|active l]|e] w1]; simpl; try done.
    + destruct (do_str D (Text active) w1) as [[label|e] w2]; simpl; try done.
      by destruct (is_NoSuchElement e || is_ValueError e).
    + by destruct (is_NoSuchElement e || is_ValueError e).
  - apply page_properties_invariant; [constructor|].
    apply process_element_stamped.
Qed.


(** ** Advancing to the next page (scraper.py) *)
Section Advance.

Context {W E : Type} (D : Driver W E).
Implicit Types s : st W E.





End Advance.

Section AdvanceSpec.

Context {W E : Type} (D : Driver W E).
Implicit Types s : st W E.




End AdvanceSpec.


(** ** Frame entry (complete_scraper.py) *)
Section FrameEntry.

Context {W E : Type} (D : Driver W E).
Implicit Types s : st W E.
Implicit Types tr : list (event E).

Lemma existsb_In_true (f : event E -> bool) tr ev :
  In ev tr -> f ev = true -> existsb f tr = true.
Proof. intros Hin Hf. apply existsb_exists. eauto. Qed.

Lemma nothing_done_framed tr : existsb is_extraction tr = false -> framed tr = true.
Proof.
  induction tr as [|ev tr IH]; [done|]. simpl.
  intros [Hev Htr]%orb_false_iff. rewrite Hev. by apply IH.
Qed.

Lemma nothing_done_entered tr :
  existsb is_switch_to_frame tr = false -> entered_by_source tr.
Proof.
  intros Hno frame ok Hin.
  by rewrite (existsb_In_true is_switch_to_frame _ _ Hin) in Hno.
Qed.

Lemma entered_by_source_cons (ev : event E) tr :
  is_switch_to_frame ev = false -> entered_by_source tr -> entered_by_source (ev :: tr).
Proof.
  intros Hev Htr frame ok [->|Hin]; [done|].
  destruct (Htr frame ok Hin) as (src & Hsrc & Hm). exists src. split; [by right|done].
Qed.

Lemma phase_before_stable : stable true before_frame (@phase_before W E).
Proof.
  split_and!.
  - intros s w ev Hev (H1 & H2 & H3). unfold phase_before, nothing_done, before_frame in *.
    simpl. rewrite H1, H2, H3.
    destruct (is_switch_to_frame ev), (is_extraction ev), (is_write ev); done.
  - done.
  - intros _. by split_and!.
Qed.

Lemma browsing_inside_frame (ev : event E) tr :
  browsing ev = true -> inside_frame (ev :: tr) = inside_frame tr.
Proof. by destruct ev as [[] ?| | | |[] ? ?| | |]. Qed.

Lemma browsing_no_switch (ev : event E) : browsing ev = true -> is_switch_to_frame ev = false.
Proof. by destruct ev as [[] ?| | | |[] ? ?| | |]. Qed.

Lemma phase_inside_stable : stable true browsing (@phase_inside W E).
Proof.
  split_and!.
  - intros s w ev Hev (H1 & H2 & H3 & H4). unfold phase_inside. cbn [trace step].
    split_and!.
    + cbn [framed]. rewrite H1, H2. by destruct (is_extraction ev).
    + by rewrite browsing_inside_frame.
    + apply entered_by_source_cons; [by apply browsing_no_switch|done].
    + simpl. rewrite H4. by destruct (src_matches ev).
  - done.
  - intros _. by split_and!.
Qed.

Lemma phase_after_stable : stable true after_frame (@phase_after W E).
Proof.
  split_and!.
  - intros s w ev Hev (H1 & H2 & H3). unfold phase_after, after_frame in *. cbn [trace step].
    apply negb_true_iff, orb_false_iff in Hev as [Hsw Hex].
    split_and!.
    + cbn [framed]. by rewrite H1, Hex.
    + by apply entered_by_source_cons.
    + simpl. rewrite H3. by destruct (src_matches ev).
  - done.
  - intros _. by split_and!.
Qed.

(** The search among the frames ends on a read of the source of the
    frame it returns, and that source designates the widget. *)
Lemma get_attribute_trace (e : E) name s r s' :
  get_attribute D e name s = (r, s') -> trace s' = EvAttr e name r :: trace s.
Proof.
  unfold get_attribute. destruct (do_attr D e name (world s)) as [r0 w].
  by intros [= <- <-].
Qed.

Lemma find_buildout_iframe_spec (iframes : list E) s :
  match Complete.find_buildout_iframe D iframes s with
  | (Ok (Some frame), s') =>
      exists src tr, trace s' = EvAttr frame "src" (Ok src) :: tr /\
                     Complete.is_buildout src = true
  | _ => True
  end.
Proof.
  unfold Complete.find_buildout_iframe. revert s.
  induction iframes as [|iframe rest IH]; intros s; [done|].
  cbn [first_some].
  destruct (get_attribute D iframe "src" s) as [[src|e] s1] eqn:Hattr.
  - erewrite bind_ok; [|erewrite bind_ok; [|exact Hattr]; reflexivity].
    destruct (Complete.is_buildout src) eqn:Hsrc.
    + exists src, (trace s). split; [|done]. apply (get_attribute_trace _ _ _ _ _ Hattr).
    + apply IH.
  - erewrite bind_raise; [done|]. by erewrite bind_raise.
Qed.

(** A step of the run that stays in its phase. *)
Lemma stays {A} (P : event E -> bool) (I : st W E -> Prop) (m : M W E A) s :
  stable true P I -> emits true P m -> I s -> I (snd (m s)).
Proof. intros HI Hm Hs. by apply Hm. Qed.

Ltac stay HI Hs H :=
  match goal with
  | |- context [(?m ≫= ?k) ?s] =>
      let Heq := fresh "Heq" in
      pose proof (stays _ _ m s HI ltac:(emits_auto) Hs) as H;
      destruct (m s) as [[?|?] ?] eqn:Heq; cbn [snd] in H;
      [rewrite (bind_ok _ _ _ _ _ Heq)|rewrite (bind_raise _ _ _ _ _ Heq)];
      clear Heq
  end.

Lemma run_phases (wm : bool) s :
  phase_before s ->
  match Complete.run D wm s with
  | (Ok code, s') => code = 1 /\ phase_before s' \/ code = 0 /\ phase_after s'
  | (Raise _, s') => phase_before s' \/ phase_after s'
  end.
Proof.
  intros H0. unfold Complete.run.
  stay phase_before_stable H0 H1; [|by left].
  stay phase_before_stable H1 H2; [|by left].
  stay phase_before_stable H2 H3; [|by left].
  stay phase_before_stable H3 H4; [|by left].
  stay phase_before_stable H4 H5; [|by left].
  stay phase_before_stable H5 H6; [|by left].
  stay phase_before_stable H6 H7; [|by left].
  stay phase_before_stable H7 H8; [|by left].
  match goal with
  | |- context [(Complete.find_buildout_iframe D ?l ≫= ?k) ?s] =>
      pose proof (find_buildout_iframe_spec l s) as Hspec;
      pose proof (stays _ _ (Complete.find_buildout_iframe D l) s phase_before_stable
                    ltac:(unfold Complete.find_buildout_iframe; emits_auto) H8) as H9;
      destruct (Complete.find_buildout_iframe D l s) as [[[frame|]|?] sf] eqn:Hfind;
      cbn [snd] in H9;
      [rewrite (bind_ok _ _ _ _ _ Hfind)|rewrite (bind_ok _ _ _ _ _ Hfind)
      |rewrite (bind_raise _ _ _ _ _ Hfind)]
  end; [|by left; split|by left].
  destruct Hspec as (src & tr & Htr & Hsrc).
  destruct H9 as (Hsw & Hex & Hwr).
  assert (Hmatch : existsb src_matches (trace sf) = true).
  { rewrite Htr. simpl. by rewrite Hsrc. }
  assert (Hin : In (EvAttr frame "src" (Ok src)) (trace sf)).
  { rewrite Htr. by left. }
  (* the frame is entered *)
  unfold mbind at 1, M_bind at 1, bind at 1. unfold call_unit at 1.
  destruct (do_unit D (SwitchToFrame frame) (world sf)) as [[[]|e] w8]; cbn beta iota.
  2:{ right. unfold phase_after. cbn [trace step]. split_and!.
      - cbn [framed is_extraction]. by rewrite nothing_done_framed.
      - intros f ok [[= <- <-]|Hin']; [by exists src; split; [right|]|].
        by rewrite (existsb_In_true is_switch_to_frame _ _ Hin') in Hsw.
      - simpl. by rewrite Hmatch. }
  match goal with
  | |- context [(?m ≫= ?k) ?s] => assert (H10 : phase_inside s)
  end.
  { unfold phase_inside. cbn [trace step]. split_and!.
    - cbn [framed is_extraction]. by rewrite nothing_done_framed.
    - done.
    - intros f ok [[= <- <-]|Hin']; [by exists src; split; [right|]|].
      by rewrite (existsb_In_true is_switch_to_frame _ _ Hin') in Hsw.
    - simpl. by rewrite Hmatch. }
  assert (Hout : forall s', phase_inside s' -> phase_after s').
  { by intros s' (? & _ & ? & ?). }
  stay phase_inside_stable H10 H11; [|by right; apply Hout].
  stay phase_inside_stable H11 H12; [|by right; apply Hout].
  match goal with
  | |- context [match ?p with (_, _) => _ end] => is_var p; destruct p as [visited all]
  end.
  apply Hout in H12.
  stay phase_after_stable H12 H13; [|by right].
  stay phase_after_stable H13 H14; [|by right].
  stay phase_after_stable H14 H15; [|by right].
  by right.
Qed.

End FrameEntry.

(** In every run of [complete_scraper.py], whatever the driver
    answers, every DOM operation of the extraction takes place inside a
    frame that was entered with [switch_to.frame] and not yet left;
    every frame entered is one whose source, as read during the
    enumeration of the frames, contains the host [buildout.com] and the
    marker [inventory]; and when no source read designates the widget,
    the run does not return the success code 0, enters no frame,
    performs no extraction and writes no output. *)
Theorem complete_run_is_framed {W E} (D : Driver W E) (wm : bool) (w : W) :
  let '(r, s') := Complete.main D wm (init_st w) in
  framed (trace s') = true /\
  entered_by_source (trace s') /\
  (if existsb src_matches (trace s') then True
   else r <> Ok 0 /\ nothing_done (trace s')).
Proof.
  assert (Hend : forall (r : result Z) (s' : st W E),
            phase_before s' /\ r <> Ok 0 \/ phase_after s' ->
            framed (trace s') = true /\ entered_by_source (trace s') /\
            (if existsb src_matches (trace s') then True
             else r <> Ok 0 /\ nothing_done (trace s'))).
  { intros r s' [[(Hsw & Hex & Hwr) Hr]|(Hf & Hen & Hm)].
    - split_and!; [by apply nothing_done_framed|by apply nothing_done_entered|].
      by destruct (existsb src_matches (trace s')).
    - split_and!; [done|done|]. by rewrite Hm. }
  unfold Complete.main.
  match goal with |- context [try_finally ?X ?close (init_st w)] =>
    assert (HX : let '(r1, s1) := X (init_st w) in
                 phase_before s1 /\ r1 <> Ok 0 \/ phase_after s1);
    [|assert (Hclose : emits true (fun ev => negb (is_switch_to_frame ev || is_extraction ev
                                                  || is_write ev)) close) by emits_auto;
      unfold try_finally; destruct (X (init_st w)) as [r1 s1];
      pose proof (stays _ _ close s1 phase_before_stable Hclose) as Hb;
      pose proof (stays after_frame _ close s1 phase_after_stable
                    ltac:(eapply emits_weaken; [|exact Hclose];
                          intros ev; unfold after_frame;
                          destruct (is_switch_to_frame ev), (is_extraction ev); done)) as Ha;
      destruct (close s1) as [[[]|e] s2]; cbn [snd] in Ha, Hb; apply Hend]
  end.
  - unfold try_except.
    pose proof (run_phases D wm (init_st w) ltac:(by split_and!)) as Hrun.
    destruct (Complete.run D wm (init_st w)) as [[code|e] s1]; cbn.
    + destruct Hrun as [[-> Hb]|[-> Ha]]; [by left|by right].
    + destruct Hrun as [Hb|Ha]; [by left|by right].
  - destruct HX as [[Hp Hr]|Hp]; [left; by split; [apply Hb|]|right; by apply Ha].
  - destruct HX as [[Hp Hr]|Hp]; [left; by split; [apply Hb|]|right; by apply Ha].
Qed.

(** ** The code on concrete sites *)

Example upper_for_lease : PyStr.upper (PyStr.strip "  For Lease ") = "FOR LEASE".
Proof. reflexivity. Qed.

Example split_property_id :
  PyStr.split "propertyId=" "https://x/?propertyId=1417234-sale" = ["https://x/?"; "1417234-sale"].
Proof. reflexivity. Qed.

Example split_trailing : PyStr.split "=" "a=" = ["a"; EmptyString].
Proof. reflexivity. Qed.

Example parse_int_examples :
  PyStr.parse_int " 12 " = Some 12 /\ PyStr.parse_int "-3" = Some (-3) /\
  PyStr.parse_int "1_0" = Some 10 /\ PyStr.parse_int "Next" = None /\
  PyStr.parse_int EmptyString = None /\ PyStr.parse_int "1__0" = None.
Proof. repeat split; reflexivity. Qed.

Example sale_listing_record :
  Fake.field "property_id" (Fake.extract Sites.sale_listing) = Some (VStr "1417234-sale") /\
  Fake.field "listing_type" (Fake.extract Sites.sale_listing) = Some (VStr "FOR SALE") /\
  Fake.field "for_sale" (Fake.extract Sites.sale_listing) = Some (VBool true) /\
  Fake.field "for_lease" (Fake.extract Sites.sale_listing) = Some (VBool false) /\
  Fake.field "title" (Fake.extract Sites.sale_listing) = Some (VStr "605 Athena Drive") /\
  Fake.field "location" (Fake.extract Sites.sale_listing) = Some (VStr "Athens, GA  30605") /\
  Fake.field "secondary_info" (Fake.extract Sites.sale_listing)
    = Some (VList ["Athens, GA  30605"; "10,000 SF"]) /\
  Fake.field "image_url" (Fake.extract Sites.sale_listing) = Some VNone /\
  Fake.field "error" (Fake.extract Sites.sale_listing) = None.
Proof. repeat split; vm_compute; reflexivity. Qed.

(** Resolver order: the first selector matches nothing, the second two
    nodes; the second is used and the third is never evaluated (two
    driver calls in all). *)
Example resolve_second_selector :
  match Scraper.resolve (Fake.fake Sites.second_selector Fake.no_failure) None
          Scraper.property_selectors (init_st Fake.start) with
  | (Ok (elements, used), s) =>
      length elements = 2%nat /\ used = Some ".property-item" /\ length (trace s) = 2%nat
  | _ => False
  end.
Proof. vm_compute. by split_and!. Qed.

(** A node whose title cannot be read: the record keeps the fields
    assigned before the failure and gets the error; the next node is
    processed. *)
Example broken_node_is_kept :
  match Sites.run_class Sites.with_broken None with
  | (Ok (_, [broken; sound]), _) =>
      broken !! "error" = Some (VStr "stale element reference") /\
      broken !! "url"
        = Some (VStr "https://www.kingindustrial.com/home-5/properties/?propertyId=7") /\
      broken !! "property_id" = Some (VStr "7") /\
      broken !! "title" = None /\
      broken !! "page_number" = Some (VInt 1) /\
      broken !! "scraped_at" = Some (VStr "2025-01-01T12:00:00") /\
      sound !! "error" = None /\
      sound !! "title" = Some (VStr "605 Athena Drive")
  | _ => False
  end.
Proof. vm_compute. by split_and!. Qed.

(** Pagination stall: the control labelled 2 is clicked once, the
    active page is still 1, and the run ends after one page. *)
Example stall_ends_the_run :
  match Sites.run_class Sites.stuck None with
  | (Ok (page_count, all_properties), s) =>
      page_count = 1 /\ length all_properties = 1%nat /\ clicks (trace s) = 1%nat
  | _ => False
  end.
Proof. vm_compute. by split_and!. Qed.

(** A site of two pages is visited in two iterations with one click. *)
Example two_pages_are_visited :
  match Sites.run_class Sites.two_pages None with
  | (Ok (page_count, all_properties), s) =>
      page_count = 2 /\ length all_properties = 2%nat /\ clicks (trace s) = 1%nat
  | _ => False
  end.
Proof. vm_compute. by split_and!. Qed.

(** The run of [complete_scraper.py] on the widget site enters the
    frame, extracts and writes; on a site without frame it ends with
    the exit code 1 and writes nothing. *)
Example complete_runs :
  (match Sites.run_complete Sites.widget_site with
   | (r, s) => r = Ok 0 /\ existsb is_write (trace s) = true /\ framed (trace s) = true
   end) /\
  (match Sites.run_complete Sites.frameless with
   | (r, s) => r = Ok 1 /\ existsb is_write (trace s) = false
               /\ existsb is_extraction (trace s) = false
   end).
Proof. vm_compute. by split_and!. Qed.

(** ** Where [scraper.py] departs from its siblings *)

(** C1: a listing node without banner, and one whose banner is empty,
    get [for_lease = False] and [for_sale = False] from
    [extract_property_details] of [scraper.py] (with [listing_type]
    [Unknown] and the empty string), where the default asks for a lease;
    [extract_comprehensive_property_data] of
    [comprehensive_scraper.py] gives lease only on the same two nodes. *)
Theorem absent_banner_sets_no_flag :
  Fake.field "listing_type" (Fake.extract Sites.bare_listing) = Some (VStr "Unknown") /\
  Fake.field "for_lease" (Fake.extract Sites.bare_listing) = Some (VBool false) /\
  Fake.field "for_sale" (Fake.extract Sites.bare_listing) = Some (VBool false) /\
  Fake.field "listing_type" (Fake.extract Sites.blank_banner_listing) = Some (VStr EmptyString) /\
  Fake.field "for_lease" (Fake.extract Sites.blank_banner_listing) = Some (VBool false) /\
  Fake.field "for_sale" (Fake.extract Sites.blank_banner_listing) = Some (VBool false) /\
  fst (Comprehensive.extract_listing_type (Fake.fake Sites.frameless Fake.no_failure)
         Sites.bare_listing (init_st Fake.start)) = Ok (true, false, EmptyString) /\
  fst (Comprehensive.extract_listing_type (Fake.fake Sites.frameless Fake.no_failure)
         Sites.blank_banner_listing (init_st Fake.start)) = Ok (true, false, EmptyString).
Proof. split_and!; vm_compute; reflexivity. Qed.

(** C2: the table pass stores the value [5,000 SF] of the row
    [Available Space] under [available_space]; the heuristic pass then
    meets the fragment [10,000 SF], tests the key [available], which
    no pass ever writes, and replaces the value of the table. *)
Theorem heuristic_overwrites_table_value :
  fst (Scraper.table_pass (Fake.fake Sites.frameless Fake.no_failure) Sites.table_listing
         (init_st Fake.start)) = Ok {["available_space" := "5,000 SF"]} /\
  Fake.field "secondary_info" (Fake.extract Sites.table_listing)
    = Some (VList ["Athens, GA  30605"; "10,000 SF"]) /\
  Fake.field "details" (Fake.extract Sites.table_listing)
    = Some (VDict {["available_space" := "10,000 SF"]}).
Proof. split_and!; vm_compute; reflexivity. Qed.

(** C3: on a site whose pagination shows a last page numbered 9999 and
    whose every click advances, a run of [scrape_all_pages] without
    [max_pages] visits 9999 pages: no fixed ceiling stops the loop. *)
Theorem misreported_total_is_followed :
  match fst (Sites.run_class Sites.endless None) with
  | Ok (page_count, all_properties) => page_count = 9999 /\ all_properties = []
  | Raise _ => False
  end.
Proof. vm_compute. by split. Qed.

(** C7: an anchor whose [href] is read as
    [/home-5/properties/?propertyId=1417234-sale], without scheme or
    host, is stored as the [url] of the record by [scraper.py];
    [complete_scraper.py] refuses it and keeps its fallback. *)
Theorem relative_url_is_accepted :
  Fake.field "url" (Fake.extract Sites.relative_link_listing)
    = Some (VStr "/home-5/properties/?propertyId=1417234-sale") /\
  Fake.field "property_id" (Fake.extract Sites.relative_link_listing)
    = Some (VStr "1417234-sale") /\
  Fake.field "error" (Fake.extract Sites.relative_link_listing) = None /\
  fst (Complete.extract_item_url (Fake.fake Sites.frameless Fake.no_failure)
         Sites.relative_link_listing (init_st Fake.start))
    = Ok "https://example.com/item/unknown".
Proof. split_and!; vm_compute; reflexivity. Qed.

(** C8: on a site whose only listing is inside the inventory frame, a
    run of [scrape_all_pages] returns normally with no record: it never
    enumerates the frames, enters no frame, and performs its DOM
    operations outside any frame; [complete_scraper.py] enters the frame
    on the same site and ends with the code 0. *)
Theorem class_run_enters_no_frame :
  match Sites.run_class Sites.widget_site None with
  | (Ok (page_count, all_properties), s) =>
      page_count = 1 /\ all_properties = [] /\
      existsb is_switch_to_frame (trace s) = false /\
      existsb (fun ev => match ev with EvFind None TAG_NAME "iframe" _ => true | _ => false end)
        (trace s) = false /\
      existsb is_extraction (trace s) = true /\
      framed (trace s) = false
  | _ => False
  end /\
  fst (Sites.run_complete Sites.widget_site) = Ok 0.
Proof. vm_compute. by split_and!. Qed.
